(** * zakhaarif-sandbox: the request-resolution policies and the origin router
      of its service worker

    A shallow embedding of the policy engine ([fetchCore]), the contracts it
    shares with the router ([serviceWorkerMeta]) and the origin router
    ([fetchHandler], [createFetchHandler]), followed by the properties of
    the specification that concern them.

    Layout: the pieces of JavaScript, of the URL standard and of the Fetch
    standard that the program calls ([JS], [URL], [Fetch]); promises with
    the trace of the calls they make ([Async]); the three source modules;
    the program installed on a host and the notions the statements use
    ([Installed], [Sample]); and then the theorems. *)

From Stdlib Require Import String Ascii List ZArith NArith Bool Lia DecimalString.
From Stdlib Require Import DecimalPos DecimalZ.
Import ListNotations.
Open Scope string_scope.

(** ** JavaScript strings and numbers

    A JavaScript string is represented by the [string] of the bytes of its
    UTF-8 encoding; this covers every well-formed string (no lone surrogate).
    Equality, [startsWith] and splitting on an ASCII separator are the same
    on code units and on UTF-8 bytes, and the UTF-8 byte length that
    [TextEncoder] reports is [String.length]. *)

Module JS.

Definition code (c : ascii) : N := N_of_ascii c.

Definition between (lo hi : N) (c : ascii) : bool :=
  ((lo <=? code c) && (code c <=? hi))%N.

Definition byte_is (n : N) (c : ascii) : bool := (code c =? n)%N.

(** The double quote character, and an attribute value between quotes. *)
Definition dq : string := String (ascii_of_N 34) EmptyString.
Definition quoted (s : string) : string := dq ++ s ++ dq.

(** [s.startsWith(p)] *)
Definition startsWith (s p : string) : bool := String.prefix p s.

(** [s.split(sep)] for a separator of one ASCII character. *)
Fixpoint split (sep : ascii) (s : string) : list string :=
  match s with
  | EmptyString => [EmptyString]
  | String c rest =>
      if Ascii.eqb c sep then EmptyString :: split sep rest
      else match split sep rest with
           | [] => [String c EmptyString]
           | piece :: pieces => String c piece :: pieces
           end
  end.

(** [a || b] where [a] is a string or null: the empty string is falsy. *)
Definition or_else (a : option string) (b : string) : string :=
  match a with
  | Some (String _ _ as s) => s
  | _ => b
  end.

(** *** White space

    The characters [trim] and [parseInt] skip (WhiteSpace and LineTerminator
    of ECMAScript), given by their UTF-8 encodings: TAB LF VT FF CR SP of one
    byte, U+00A0 of two, and U+1680, U+2000..U+200A, U+2028, U+2029, U+202F,
    U+205F, U+3000, U+FEFF of three. *)

Definition blank1 (c : ascii) : bool := between 9 13 c || byte_is 32 c.

Definition blank2 (c1 c2 : ascii) : bool := byte_is 194 c1 && byte_is 160 c2.

Definition blank3 (c1 c2 c3 : ascii) : bool :=
  (byte_is 225 c1 && byte_is 154 c2 && byte_is 128 c3)
  || (byte_is 226 c1 && byte_is 128 c2
      && (between 128 138 c3 || byte_is 168 c3 || byte_is 169 c3 || byte_is 175 c3))
  || (byte_is 226 c1 && byte_is 129 c2 && byte_is 159 c3)
  || (byte_is 227 c1 && byte_is 128 c2 && byte_is 128 c3)
  || (byte_is 239 c1 && byte_is 187 c2 && byte_is 191 c3).

Fixpoint trimStart (s : string) : string :=
  match s with
  | String c1 r1 =>
      if blank1 c1 then trimStart r1
      else match r1 with
           | String c2 r2 =>
               if blank2 c1 c2 then trimStart r2
               else match r2 with
                    | String c3 r3 => if blank3 c1 c2 c3 then trimStart r3 else s
                    | EmptyString => s
                    end
           | EmptyString => s
           end
  | EmptyString => s
  end.

Definition all_blank (s : string) : bool :=
  match trimStart s with EmptyString => true | String _ _ => false end.

Fixpoint trimEnd (s : string) : string :=
  match s with
  | EmptyString => EmptyString
  | String c rest => if all_blank s then EmptyString else String c (trimEnd rest)
  end.

(** [s.trim()] *)
Definition trim (s : string) : string := trimEnd (trimStart s).

(** *** Numbers

    The numbers the program handles are integers (a policy code, a status, a
    byte length) or NaN.  [parseInt] rounds a long digit string to a double;
    since every integer up to 2^53 is exact and rounding is monotone, the
    rounded value is 1, 2 or 4 exactly when the integer is, which is all the
    [switch] of [fetchCore] asks of it.  The sign of zero is not kept. *)

Inductive Number : Type :=
| NaN
| Num (z : Z).

(** [a === b] on numbers: NaN equals nothing. *)
Definition strict_eq (a : Number) (b : Z) : bool :=
  match a with
  | NaN => false
  | Num z => (z =? b)%Z
  end.

(** The value of a character as a digit, for radixes up to 36. *)
Definition digit_value (c : ascii) : option Z :=
  if between 48 57 c then Some (Z.of_N (code c) - 48)%Z
  else if between 97 122 c then Some (Z.of_N (code c) - 87)%Z
  else if between 65 90 c then Some (Z.of_N (code c) - 55)%Z
  else None.

Definition digit_in (radix : Z) (c : ascii) : option Z :=
  match digit_value c with
  | Some d => if (d <? radix)%Z then Some d else None
  | None => None
  end.

(** The longest prefix of digits of the radix, read from the left. *)
Fixpoint digits (radix acc : Z) (s : string) : Z :=
  match s with
  | String c rest =>
      match digit_in radix c with
      | Some d => digits radix (radix * acc + d)%Z rest
      | None => acc
      end
  | EmptyString => acc
  end.

Definition starts_with_digit (radix : Z) (s : string) : bool :=
  match s with
  | String c _ => match digit_in radix c with Some _ => true | None => false end
  | EmptyString => false
  end.

Definition strip_sign (s : string) : Z * string :=
  match s with
  | String c rest =>
      if byte_is 45 c then ((-1)%Z, rest)
      else if byte_is 43 c then (1%Z, rest)
      else (1%Z, s)
  | EmptyString => (1%Z, s)
  end.

(** The rest of [s] after a leading 0x or 0X, if it has one. *)
Definition hex_prefix (s : string) : option string :=
  match s with
  | String c1 (String c2 rest) =>
      if byte_is 48 c1 && (byte_is 120 c2 || byte_is 88 c2) then Some rest else None
  | _ => None
  end.

(** [parseInt(s, radix)] for an integer radix: leading white space is
    skipped, then an optional sign, then (for radix 0 or 16) a 0x prefix;
    the digits that follow are read, what comes after them is ignored, and
    no digit at all gives NaN. *)
Definition parseInt (s : string) (radix : Z) : Number :=
  let (sign, unsigned) := strip_sign (trimStart s) in
  if negb (radix =? 0)%Z && ((radix <? 2)%Z || (36 <? radix)%Z) then NaN
  else
    let r0 := if (radix =? 0)%Z then 10%Z else radix in
    let stripPrefix := (radix =? 0)%Z || (radix =? 16)%Z in
    let (r, body) :=
      match hex_prefix unsigned with
      | Some rest => if stripPrefix then (16%Z, rest) else (r0, unsigned)
      | None => (r0, unsigned)
      end in
    if starts_with_digit r body then Num (sign * digits r 0 body) else NaN.

(** [n.toString()] for the integers the program prints. *)
Definition nat_toString (n : nat) : string := NilZero.string_of_uint (Nat.to_uint n).
Definition Z_toString (z : Z) : string := NilZero.string_of_int (Z.to_int z).

(** *** Thrown values

    What a promise rejects with or a [catch] receives: an error object with
    its name and message, or a plain string. *)

Inductive Value : Type :=
| Error (name message : string)
| Str (s : string).

(** [String(v)]; for an error object this is [Error.prototype.toString]. *)
Definition String_ (v : Value) : string :=
  match v with
  | Str s => s
  | Error name message =>
      match name, message with
      | EmptyString, _ => message
      | _, EmptyString => name
      | _, _ => name ++ ": " ++ message
      end
  end.

End JS.

(** ** URL decoding

    [URLSearchParams] as the URL standard parses a query (split on the
    ampersand, then on the first equals sign, plus to space, percent-decoding,
    UTF-8 decoding that replaces what is ill-formed by U+FFFD) and
    [decodeURIComponent] as ECMAScript defines it (every escape must be
    complete, and the bytes of a run of escapes must be well-formed UTF-8, or
    a URIError is thrown). *)

Module URL.
Import JS.

Definition hex (c : ascii) : option N :=
  if between 48 57 c then Some (code c - 48)%N
  else if between 97 102 c then Some (code c - 87)%N
  else if between 65 70 c then Some (code c - 55)%N
  else None.

Definition octet (h1 h2 : ascii) : option ascii :=
  match hex h1, hex h2 with
  | Some a, Some b => Some (ascii_of_N (16 * a + b))
  | _, _ => None
  end.

(** *** Well-formed UTF-8: what a first byte asks of the bytes after it *)

(** How many continuation bytes follow a first byte; 0 for a byte that
    cannot start a character of more than one byte. *)
Definition continuation_count (c : ascii) : nat :=
  if between 194 223 c then 1
  else if between 224 239 c then 2
  else if between 240 244 c then 3
  else 0.

(** The range of the second byte; the third and fourth are in 128..191. *)
Definition second_lo (c : ascii) : N :=
  if byte_is 224 c then 160%N else if byte_is 240 c then 144%N else 128%N.

Definition second_hi (c : ascii) : N :=
  if byte_is 237 c then 159%N else if byte_is 244 c then 143%N else 191%N.

(** U+FFFD in UTF-8. *)
Definition replacement : string :=
  String (ascii_of_N 239) (String (ascii_of_N 191) (String (ascii_of_N 189) EmptyString)).

(** *** The lossy UTF-8 decoder of the Encoding standard *)

Record Pending : Type := mkPending
  { seen : string;      (* the bytes of the character read so far *)
    needed : nat;       (* continuation bytes still to come *)
    lower : N;
    upper : N }.

Definition first_byte (c : ascii) : string * option Pending :=
  if between 0 127 c then (String c EmptyString, None)
  else match continuation_count c with
       | O => (replacement, None)
       | S n =>
           (EmptyString,
            Some (mkPending (String c EmptyString) (S n) (second_lo c) (second_hi c)))
       end.

Fixpoint utf8_decode_from (st : option Pending) (s : string) : string :=
  match s with
  | EmptyString =>
      match st with
      | Some _ => replacement
      | None => EmptyString
      end
  | String c rest =>
      match st with
      | None =>
          let (out, st') := first_byte c in out ++ utf8_decode_from st' rest
      | Some p =>
          if between (lower p) (upper p) c then
            match needed p with
            | S (S n) =>
                utf8_decode_from
                  (Some (mkPending (seen p ++ String c EmptyString) (S n) 128 191)) rest
            | _ => seen p ++ String c (utf8_decode_from None rest)
            end
          else
            let (out, st') := first_byte c in
            replacement ++ out ++ utf8_decode_from st' rest
      end
  end.

Definition utf8_decode (s : string) : string := utf8_decode_from None s.

(** *** Percent-decoding of the URL standard: an incomplete escape stays *)

Fixpoint percent_decode (s : string) : string :=
  match s with
  | EmptyString => EmptyString
  | String c rest =>
      if byte_is 37 c then
        match rest with
        | String h1 (String h2 rest') =>
            match octet h1 h2 with
            | Some b => String b (percent_decode rest')
            | None => String c (percent_decode rest)
            end
        | _ => String c (percent_decode rest)
        end
      else String c (percent_decode rest)
  end.

Fixpoint plus_to_space (s : string) : string :=
  match s with
  | EmptyString => EmptyString
  | String c rest => String (if byte_is 43 c then " "%char else c) (plus_to_space rest)
  end.

(** A piece of the query cut at its first equals sign. *)
Fixpoint name_value (s : string) : string * string :=
  match s with
  | EmptyString => (EmptyString, EmptyString)
  | String c rest =>
      if byte_is 61 c then (EmptyString, rest)
      else let (name, value) := name_value rest in (String c name, value)
  end.

Definition form_decode (s : string) : string :=
  utf8_decode (percent_decode (plus_to_space s)).

Definition URLSearchParams : Type := list (string * string).

Definition nonempty (s : string) : bool :=
  match s with EmptyString => false | String _ _ => true end.

(** [new URLSearchParams(init)] for a string: a leading question mark is
    dropped. *)
Definition new_URLSearchParams (init : string) : URLSearchParams :=
  let query := match init with
               | String c rest => if byte_is 63 c then rest else init
               | EmptyString => init
               end in
  map (fun piece => let (name, value) := name_value piece in
                    (form_decode name, form_decode value))
      (filter nonempty (split "&" query)).

(** [params.has(name)] *)
Definition has (params : URLSearchParams) (name : string) : bool :=
  existsb (fun p => String.eqb (fst p) name) params.

(** [params.get(name)]: the first value of that name, or null. *)
Definition get (params : URLSearchParams) (name : string) : option string :=
  option_map snd (find (fun p => String.eqb (fst p) name) params).

(** *** decodeURIComponent *)

Inductive Token : Type :=
| Lit (c : ascii)     (* a character that is no percent sign *)
| Esc (b : ascii)     (* a complete escape and its byte *)
| Bad.                (* a percent sign with no two hex digits after it *)

Fixpoint tokens (s : string) : list Token :=
  match s with
  | EmptyString => []
  | String c rest =>
      if byte_is 37 c then
        match rest with
        | String h1 (String h2 rest') =>
            match octet h1 h2 with
            | Some b => Esc b :: tokens rest'
            | None => [Bad]
            end
        | _ => [Bad]
        end
      else Lit c :: tokens rest
  end.

Definition continuation (b : ascii) : bool := between 128 191 b.

Definition second (b1 b2 : ascii) : bool := between (second_lo b1) (second_hi b1) b2.

Fixpoint decode_tokens (ts : list Token) : option string :=
  match ts with
  | [] => Some EmptyString
  | Lit c :: rest => option_map (String c) (decode_tokens rest)
  | Bad :: _ => None
  | Esc b1 :: rest =>
      if between 0 127 b1 then option_map (String b1) (decode_tokens rest)
      else
        match continuation_count b1, rest with
        | 1, Esc b2 :: rest' =>
            if second b1 b2
            then option_map (fun r => String b1 (String b2 r)) (decode_tokens rest')
            else None
        | 2, Esc b2 :: Esc b3 :: rest' =>
            if second b1 b2 && continuation b3
            then option_map (fun r => String b1 (String b2 (String b3 r)))
                            (decode_tokens rest')
            else None
        | 3, Esc b2 :: Esc b3 :: Esc b4 :: rest' =>
            if second b1 b2 && continuation b3 && continuation b4
            then option_map (fun r => String b1 (String b2 (String b3 (String b4 r))))
                            (decode_tokens rest')
            else None
        | _, _ => None
        end
  end.

(** The decoded string, or [None] where JavaScript throws a URIError. *)
Definition decodeURIComponent (s : string) : option string :=
  decode_tokens (tokens s).

(** The error thrown in that case (the message is the one V8 gives). *)
Definition URIError : Value := Error "URIError" "URI malformed".

End URL.

(** ** Requests, responses and headers of the Fetch standard

    Header names and values are taken to be valid and already normalized
    (for others [Headers] would throw a TypeError or strip blanks), and the
    header list of a response the program touches can be appended to, as it
    can for every response built with [new Response]. *)

Module Fetch.

(** *** Object literals with string keys

    Keys in insertion order; assigning to a key that is present replaces its
    value in place.  (Keys that are array indices, which JavaScript would
    enumerate first, are no header names.) *)

Definition Object : Type := list (string * string).

Fixpoint set (o : Object) (key value : string) : Object :=
  match o with
  | [] => [(key, value)]
  | (k, v) :: rest =>
      if String.eqb k key then (k, value) :: rest else (k, v) :: set rest key value
  end.

(** [o[key]] *)
Definition property (o : Object) (key : string) : option string :=
  option_map snd (find (fun kv => String.eqb (fst kv) key) o).

(** [{...o, ...extra}] *)
Definition spread (o extra : Object) : Object :=
  fold_left (fun acc kv => set acc (fst kv) (snd kv)) extra o.

(** *** Headers: a list of pairs, looked up without regard to case *)

Definition Headers : Type := list (string * string).

Definition lower (c : ascii) : ascii :=
  if JS.between 65 90 c then ascii_of_N (JS.code c + 32) else c.

Fixpoint lowercase (s : string) : string :=
  match s with
  | EmptyString => EmptyString
  | String c rest => String (lower c) (lowercase rest)
  end.

Definition same_name (a b : string) : bool := String.eqb (lowercase a) (lowercase b).

Definition values (h : Headers) (name : string) : list string :=
  map snd (filter (fun kv => same_name (fst kv) name) h).

(** [headers.has(name)] *)
Definition has (h : Headers) (name : string) : bool :=
  existsb (fun kv => same_name (fst kv) name) h.

(** [headers.get(name)]: the values of that name joined by a comma and a
    space, or null. *)
Definition get (h : Headers) (name : string) : option string :=
  match values h name with
  | [] => None
  | v :: vs => Some (fold_left (fun acc w => acc ++ ", " ++ w) vs v)
  end.

(** [headers.append(name, value)] *)
Definition append (h : Headers) (name value : string) : Headers :=
  (h ++ [(name, value)])%list.

(** [new Headers(o)]: the entries of [o] appended in order. *)
Definition new_Headers (o : Object) : Headers :=
  fold_left (fun h kv => append h (fst kv) (snd kv)) o [].

(** *** Response *)

Record Response : Type := mkResponse
  { status : Z;
    statusText : string;
    headers : Headers;
    body : string }.

(** [response.ok] *)
Definition ok (r : Response) : bool := (200 <=? status r)%Z && (status r <=? 299)%Z.

Record ResponseInit : Type := mkInit
  { init_status : Z;
    init_statusText : string;
    init_headers : Object }.

(** [new Response(body, init)] for a string body: the body is its UTF-8
    bytes, and a response given no content type gets the one of text. *)
Definition new_Response (text : string) (init : ResponseInit) : Response :=
  let h := new_Headers (init_headers init) in
  mkResponse (init_status init) (init_statusText init)
    (if has h "Content-Type" then h
     else append h "content-type" "text/plain;charset=UTF-8")
    text.

(** *** Request *)

Record Request : Type := mkRequest
  { url : string;
    request_headers : Headers;
    mode : string;
    destination : string }.

(** The argument of [fetch]: a request or a URL string. *)
Inductive RequestInfo : Type :=
| OfRequest (request : Request)
| OfString (url : string).

End Fetch.

(** ** Promises

    An asynchronous computation either fulfils with a value or rejects with
    a thrown value; on the way it calls the host (the network, the file
    cache of a client, the logger), and every call is recorded, in order, in
    the trace that is threaded through. *)

Module Async.
Import Fetch.

Inductive Call : Type :=
| NetworkFetch (input : RequestInfo)
| GetClientFile (url clientId : string)
| Log (message : string).

Inductive Settled (A : Type) : Type :=
| Fulfilled (value : A)
| Rejected (reason : JS.Value).

Arguments Fulfilled {A} value.
Arguments Rejected {A} reason.

Definition Trace : Type := list Call.

Definition Promise (A : Type) : Type := Trace -> Trace * Settled A.

Definition resolve {A} (a : A) : Promise A := fun t => (t, Fulfilled a).

Definition reject {A} (e : JS.Value) : Promise A := fun t => (t, Rejected e).

(** [const x = await p; k x]; a rejection of [p] is thrown on. *)
Definition await {A B} (p : Promise A) (k : A -> Promise B) : Promise B :=
  fun t =>
    match p t with
    | (t', Fulfilled a) => k a t'
    | (t', Rejected e) => (t', Rejected e)
    end.

(** [try { p } catch (err) { handler err }] *)
Definition try_catch {A} (p : Promise A) (handler : JS.Value -> Promise A) : Promise A :=
  fun t =>
    match p t with
    | (t', Fulfilled a) => (t', Fulfilled a)
    | (t', Rejected e) => handler e t'
    end.

(** A computation run from the empty trace. *)
Definition run {A} (p : Promise A) : Trace * Settled A := p [].

(** The requests the network was called with, and the arguments the file
    cache was called with. *)
Definition network_calls (t : Trace) : list RequestInfo :=
  flat_map (fun c => match c with NetworkFetch i => [i] | _ => [] end) t.

Definition cache_calls (t : Trace) : list (string * string) :=
  flat_map (fun c => match c with GetClientFile u id => [(u, id)] | _ => [] end) t.

(** *** The host

    What the network answers to a request and what the file cache of a
    client holds for a URL; the three functions handed to the program
    record their call and settle as the host says. *)

Record Host : Type := mkHost
  { network : RequestInfo -> Settled Response;
    files : string -> string -> Settled (option Response) }.

Definition LogFn : Type := string -> Promise unit.

Definition host_fetch (h : Host) (input : RequestInfo) : Promise Response :=
  fun t => ((t ++ [NetworkFetch input])%list, network h input).

Definition host_getClientFile (h : Host) (url clientId : string)
  : Promise (option Response) :=
  fun t => ((t ++ [GetClientFile url clientId])%list, files h url clientId).

Definition host_log : LogFn := fun message t => ((t ++ [Log message])%list, Fulfilled tt).

End Async.

Declare Scope promise_scope.
Delimit Scope promise_scope with promise.
Notation "x <- p ;; k" := (Async.await p (fun x => k))
  (at level 61, p at next level, right associativity) : promise_scope.
Notation "p ;; k" := (Async.await p (fun _ => k))
  (at level 61, right associativity) : promise_scope.
Notation "'try' p 'catch' err => h" := (Async.try_catch p (fun err => h))
  (at level 10, p at level 200, err name, h at level 200) : promise_scope.

Open Scope promise_scope.

(** ** [serviceWorkerMeta]: header names, policy codes, canonical responses

    In the sources this module follows [fetchCore] in
    [src/lib/fetchCore.ts]. *)

Module serviceWorkerMeta.
Import Fetch Async.

Record HeaderEntry : Type := mkEntry { key : string; value : string }.

Definition serviceWorkerCacheHitHeader : HeaderEntry := mkEntry "X-Cache-Hit" "SW HIT".

Definition serviceWorkerErrorCatchHeader : string := "Sw-Net-Err".

Definition serviceWorkerPolicyHeader : string := "Sw-Policy".

Definition NETWORK_FIRST_POLICY : Z := 1.
Definition NETWORK_ONLY_POLICY : Z := 2.
Definition CACHE_FIRST_POLICY : Z := 3.
Definition CACHE_ONLY_POLICY : Z := 4.

(** The header objects a client spreads into its request, one per policy. *)
Record Policies : Type := mkPolicies
  { networkOnly : Object;
    networkFirst : Object;
    cacheFirst : Object;
    cacheOnly : Object }.

Definition serviceWorkerPolicies : Policies :=
  mkPolicies
    [("Sw-Policy", JS.Z_toString NETWORK_ONLY_POLICY)]
    [("Sw-Policy", JS.Z_toString NETWORK_FIRST_POLICY)]
    [("Sw-Policy", JS.Z_toString CACHE_FIRST_POLICY)]
    [("Sw-Policy", JS.Z_toString CACHE_ONLY_POLICY)].

(** The header is appended to the response in place and the response is
    returned; the program never looks at the object it passed again, so the
    returned value is all that is modelled. *)
Definition cacheHit (response : Response) : Response :=
  mkResponse (status response) (statusText response)
    (append (headers response)
       (key serviceWorkerCacheHitHeader) (value serviceWorkerCacheHitHeader))
    (body response).

Definition NOT_FOUND_RESPONSE : Response :=
  new_Response "not found" (mkInit 404 "NOT FOUND" []).

Definition errorResponse (err : JS.Value) : Response :=
  new_Response (JS.String_ err)
    (mkInit 500 "INTERNAL SERVER ERROR" [(serviceWorkerErrorCatchHeader, "1")]).

(** [!!cached] and [cached?.status || "none"] as the template prints them;
    a status of 0 is falsy. *)
Definition cache_hit_text (cached : option Response) : string :=
  match cached with Some _ => "true" | None => "false" end.

Definition cache_status_text (cached : option Response) : string :=
  match cached with
  | Some c => if (status c =? 0)%Z then "none" else JS.Z_toString (status c)
  | None => "none"
  end.

Definition logRequest (tag : string) (request : Request) (logFn : LogFn)
    (shouldLog : bool) (cached : option Response) : Promise unit :=
  if shouldLog then
    logFn ("incoming request (" ++ tag ++ "): url=" ++ url request
           ++ ", cache_hit=" ++ cache_hit_text cached
           ++ ", cache_status=" ++ cache_status_text cached
           ++ ", mode=" ++ mode request
           ++ ", destination=" ++ destination request)
  else resolve tt.

End serviceWorkerMeta.

(** ** [fetchCore]: the policy engine ([src/lib/fetchCore.ts]) *)

Module fetchCore.
Import Fetch Async serviceWorkerMeta.

(** [policies.cacheFirst["Sw-Policy"]] *)
Definition CACHE_FIRST : string :=
  match property (cacheFirst serviceWorkerPolicies) "Sw-Policy" with
  | Some v => v
  | None => EmptyString
  end.

(** The argument is the promise of a call already made; like [fetch], the
    network function reports every failure by rejecting that promise. *)
Definition safeRequest (request : Promise Response) : Promise Response :=
  try (res <- request ;; resolve res)
  catch err => resolve (errorResponse err).

Definition cachefirstTag : string := "cache-first".
Definition cacheonlyTag : string := "cache-only".
Definition networkfirstTag : string := "network-first".

Record FileCache : Type := mkFileCache
  { getFile : string -> string -> Promise (option Response) }.

Definition fetchCore (request : Request)
    (networkFetch : RequestInfo -> Promise Response)
    (fileCache : FileCache) (targetClientId : string)
    (log : LogFn) (shouldLog : bool) : Promise Response :=
  let policyString :=
    JS.or_else (get (request_headers request) serviceWorkerPolicyHeader) CACHE_FIRST in
  let policy := JS.parseInt policyString 10 in
  if JS.strict_eq policy NETWORK_ONLY_POLICY then
    logRequest networkfirstTag request log shouldLog None ;;
    safeRequest (networkFetch (OfRequest request))
  else if JS.strict_eq policy NETWORK_FIRST_POLICY then
    try (res <- networkFetch (OfRequest request) ;;
         logRequest networkfirstTag request log shouldLog None ;;
         resolve res)
    catch err =>
      (cached <- getFile fileCache (url request) targetClientId ;;
       logRequest networkfirstTag request log shouldLog cached ;;
       match cached with
       | Some entry =>
           if ok entry then resolve (cacheHit entry) else resolve (errorResponse err)
       | None => resolve (errorResponse err)
       end)
  else if JS.strict_eq policy CACHE_ONLY_POLICY then
    cached <- getFile fileCache (url request) targetClientId ;;
    logRequest cacheonlyTag request log shouldLog cached ;;
    match cached with
    | Some entry => resolve (cacheHit entry)
    | None => resolve NOT_FOUND_RESPONSE
    end
  else
    cached <- getFile fileCache (url request) targetClientId ;;
    logRequest cachefirstTag request log shouldLog cached ;;
    match cached with
    | Some entry =>
        if ok entry then resolve (cacheHit entry)
        else safeRequest (networkFetch (OfRequest request))
    | None => safeRequest (networkFetch (OfRequest request))
    end.

End fetchCore.

(** ** [config] *)

Module config.

(** Modelled from the spec: the constant [RUN_PROGRAM_PATHNAME] of
    [src/config.ts], a file that is not among the sources.  The spec calls it
    the fixed pathname of the run-program route, and the tests of the
    handler request it as [/runProgram]. *)
Definition RUN_PROGRAM_PATHNAME : string := "/runProgram".

End config.

(** ** [fetchHandler]: the origin router ([src/lib/fetchHandler.ts]) *)

Module fetchHandler.
Import Fetch Async serviceWorkerMeta.

Definition nl : string := String (ascii_of_N 10) EmptyString.

Definition generateTemplate (importSource securityPolicy : string) : string :=
  JS.trim
    (nl
     ++ "<!DOCTYPE html>" ++ nl
     ++ "<html lang=" ++ JS.quoted "en" ++ ">" ++ nl
     ++ "<head>" ++ nl
     ++ "    <meta charset=" ++ JS.quoted "UTF-8" ++ ">" ++ nl
     ++ "    <meta http-equiv=" ++ JS.quoted "X-UA-Compatible"
        ++ " content=" ++ JS.quoted "IE=edge" ++ ">" ++ nl
     ++ "    <meta name=" ++ JS.quoted "viewport"
        ++ " content=" ++ JS.quoted "width=device-width, initial-scale=1.0" ++ ">" ++ nl
     ++ "    <title>Sandbox</title>" ++ nl
     ++ "    <meta http-equiv=" ++ JS.quoted "Content-Security-Policy"
        ++ " content=" ++ JS.quoted securityPolicy ++ "/>" ++ nl
     ++ "</head>" ++ nl
     ++ "<body>" ++ nl
     ++ "    <script entry=" ++ JS.quoted importSource
        ++ " id=" ++ JS.quoted "root-script"
        ++ " src=" ++ JS.quoted "./secure.compiled.js"
        ++ " type=" ++ JS.quoted "module" ++ " defer> </script>" ++ nl
     ++ "</body>" ++ nl
     ++ "</html>").

Record FileCache : Type := mkFileCache
  { getClientFile : string -> string -> Promise (option Response) }.

(** The fields of the event the handler reads. *)
Record FetchHandlerEvent : Type := mkEvent
  { request : Request;
    clientId : string;
    resultingClientId : string }.

Record ConfigReference : Type := mkConfig { config_log : bool }.

Record FetchHandlerOptions : Type := mkOptions
  { origin : string;
    fileCache : FileCache;
    networkFetch : RequestInfo -> Promise Response;
    inMemoryDocumentHeaders : option Object;
    log : LogFn;
    config : ConfigReference }.

Section Inlined.

(** The two assets inlined at build time ([index-html.inlined.json],
    [secure-compiled-mjs.inlined.json]) and their byte lengths
    ([inlinedMeta.ts]): generated files, taken as parameters. *)
Variables (IndexHtml SecureMjs : string).
Variables (INDEX_HTML_LENGTH SECURE_MJS_LENGTH : nat).

Definition createFetchHandler (options : FetchHandlerOptions)
  : FetchHandlerEvent -> Promise Response :=
  let origin := origin options in
  let fileCache := fileCache options in
  let networkFetch := networkFetch options in
  let inMemoryDocumentHeaders :=
    match inMemoryDocumentHeaders options with Some h => h | None => [] end in
  let log := log options in
  let config := config options in
  let rootDoc := origin ++ "/" in
  let templateEndpoint := origin ++ config.RUN_PROGRAM_PATHNAME in
  let entryScript := origin ++ "/secure.compiled.js" in
  let testScript := origin ++ "/test.mjs" in
  let clientCache := fetchCore.mkFileCache (getClientFile fileCache) in
  fun event =>
    let request := request event in
    if JS.startsWith (url request) origin then
      if String.eqb (url request) rootDoc then
        try (res <- networkFetch (OfRequest request) ;; resolve res)
        catch err =>
          (let inMemoryHtml :=
             new_Response IndexHtml
               (mkInit 200 "OK"
                  (spread [("content-type", "text/html");
                           ("content-length", JS.nat_toString INDEX_HTML_LENGTH)]
                          inMemoryDocumentHeaders)) in
           resolve (cacheHit inMemoryHtml))
      else if JS.startsWith (url request) templateEndpoint then
        let query := JS.split "?" (url request) in
        if (length query <? 2)%nat then
          resolve (errorResponse (JS.Str "template endpoint must have query"))
        else
          let params := URL.new_URLSearchParams ("?" ++ nth 1 query EmptyString) in
          if negb (URL.has params "csp") || negb (URL.has params "entry") then
            resolve (errorResponse
              (JS.Str "template endpoint have both an 'csp' and 'entry' query"))
          else
            match URL.decodeURIComponent (JS.or_else (URL.get params "csp") EmptyString) with
            | None => reject URL.URIError
            | Some securityPolicy =>
                match URL.decodeURIComponent
                        (JS.or_else (URL.get params "entry") EmptyString) with
                | None => reject URL.URIError
                | Some importSource =>
                    let templateText := generateTemplate importSource securityPolicy in
                    resolve
                      (new_Response templateText
                         (mkInit 200 "OK"
                            (spread [("content-type", "text/html");
                                     ("content-length",
                                      JS.nat_toString (String.length templateText))]
                                    inMemoryDocumentHeaders)))
                end
            end
      else if JS.startsWith (url request) entryScript then
        try (res <- networkFetch (OfString entryScript) ;; resolve res)
        catch err =>
          (let inMemorySecureMjs :=
             new_Response SecureMjs
               (mkInit 200 "OK"
                  (spread [("content-type", "text/javascript");
                           ("content-length", JS.nat_toString SECURE_MJS_LENGTH)]
                          inMemoryDocumentHeaders)) in
           resolve (cacheHit inMemorySecureMjs))
      else if JS.startsWith (url request) testScript then
        networkFetch (OfRequest request)
      else resolve NOT_FOUND_RESPONSE
    else
      fetchCore.fetchCore request networkFetch clientCache
        (JS.or_else (Some (clientId event)) (resultingClientId event))
        log (config_log config).

End Inlined.

End fetchHandler.

(** ** The program installed on a host

    The policy engine and the router given the three recording functions of
    a host, as the service worker gives them [fetch], the file lookup of a
    client and [console.info]. *)

Module Installed.
Import Fetch Async serviceWorkerMeta.

Definition engine (host : Host) (shouldLog : bool) (targetClientId : string)
    (request : Request) : Promise Response :=
  fetchCore.fetchCore request (host_fetch host)
    (fetchCore.mkFileCache (host_getClientFile host))
    targetClientId host_log shouldLog.

Definition options (host : Host) (origin : string) (extra : option Object)
    (shouldLog : bool) : fetchHandler.FetchHandlerOptions :=
  fetchHandler.mkOptions origin
    (fetchHandler.mkFileCache (host_getClientFile host))
    (host_fetch host) extra host_log (fetchHandler.mkConfig shouldLog).

(** The inlined assets with their lengths. *)
Record Assets : Type := mkAssets
  { IndexHtml : string;
    INDEX_HTML_LENGTH : nat;
    SecureMjs : string;
    SECURE_MJS_LENGTH : nat }.

Definition handle (assets : Assets) (host : Host) (origin : string)
    (extra : option Object) (shouldLog : bool)
  : fetchHandler.FetchHandlerEvent -> Promise Response :=
  fetchHandler.createFetchHandler
    (IndexHtml assets) (SecureMjs assets)
    (INDEX_HTML_LENGTH assets) (SECURE_MJS_LENGTH assets)
    (options host origin extra shouldLog).

(** The configured extra headers, none when the option is left out. *)
Definition extra_headers (extra : option Object) : Object :=
  match extra with Some h => h | None => [] end.

(** The cached entry the cache-first and network-first policies accept:
    one that exists and whose status is 2xx. *)
Definition usable (cached : option Response) : option Response :=
  match cached with
  | Some entry => if ok entry then Some entry else None
  | None => None
  end.

(** The value of the policy header a request carries, if any. *)
Definition policy_header (request : Request) : option string :=
  get (request_headers request) serviceWorkerPolicyHeader.

(** A response that reports a failed fetch: status 500, the error header
    set, and the cause as its text. *)
Definition network_error (cause : JS.Value) (r : Response) : Prop :=
  status r = 500%Z
  /\ get (headers r) serviceWorkerErrorCatchHeader = Some "1"
  /\ body r = JS.String_ cause.

(** A response that is [entry] marked as a cache hit: same status and body,
    the cache-hit header added after the headers it had. *)
Definition cache_hit_of (entry r : Response) : Prop :=
  status r = status entry
  /\ body r = body entry
  /\ headers r = (headers entry ++ [("X-Cache-Hit", "SW HIT")])%list.

(** The document the router builds in memory when the network fails: status
    200, the content type and length it gives, the extra headers spread
    over them, and the cache-hit header appended last. *)
Definition in_memory_document (contentType text : string) (len : nat)
    (extra : Object) : Response :=
  mkResponse 200 "OK"
    (spread [("content-type", contentType);
             ("content-length", JS.nat_toString len)] extra
     ++ [("X-Cache-Hit", "SW HIT")])%list
    text.

(** The response of the template endpoint for a rendered text. *)
Definition template_response (text : string) (extra : Object) : Response :=
  mkResponse 200 "OK"
    (spread [("content-type", "text/html");
             ("content-length", JS.nat_toString (String.length text))] extra)
    text.

(** The parameters of a template request as the router reads them: the
    text between the first and the second question mark of the URL, parsed
    as a query. *)
Definition template_query (u : string) : list string := JS.split "?" u.

Definition template_params (u : string) : URL.URLSearchParams :=
  URL.new_URLSearchParams ("?" ++ nth 1 (template_query u) EmptyString).

(** *** The rendered template, piece by piece

    The two tags that carry the parameters, and the fixed text before,
    between and after them. *)

Definition csp_meta_tag (securityPolicy : string) : string :=
  "<meta http-equiv=" ++ JS.quoted "Content-Security-Policy"
  ++ " content=" ++ JS.quoted securityPolicy ++ "/>".

Definition root_script_tag (importSource : string) : string :=
  "<script entry=" ++ JS.quoted importSource
  ++ " id=" ++ JS.quoted "root-script"
  ++ " src=" ++ JS.quoted "./secure.compiled.js"
  ++ " type=" ++ JS.quoted "module" ++ " defer> </script>".

Definition document_head : string :=
  "<!DOCTYPE html>" ++ fetchHandler.nl
  ++ "<html lang=" ++ JS.quoted "en" ++ ">" ++ fetchHandler.nl
  ++ "<head>" ++ fetchHandler.nl
  ++ "    <meta charset=" ++ JS.quoted "UTF-8" ++ ">" ++ fetchHandler.nl
  ++ "    <meta http-equiv=" ++ JS.quoted "X-UA-Compatible"
     ++ " content=" ++ JS.quoted "IE=edge" ++ ">" ++ fetchHandler.nl
  ++ "    <meta name=" ++ JS.quoted "viewport"
     ++ " content=" ++ JS.quoted "width=device-width, initial-scale=1.0" ++ ">"
     ++ fetchHandler.nl
  ++ "    <title>Sandbox</title>" ++ fetchHandler.nl
  ++ "    ".

Definition document_middle : string :=
  fetchHandler.nl ++ "</head>" ++ fetchHandler.nl
  ++ "<body>" ++ fetchHandler.nl ++ "    ".

Definition document_tail : string :=
  fetchHandler.nl ++ "</body>" ++ fetchHandler.nl ++ "</html>".

(** The last character of a string, and whether it is an ASCII character
    that is no white space: such a string loses nothing to [trimEnd]. *)
Fixpoint last_char (s : string) : option ascii :=
  match s with
  | EmptyString => None
  | String c EmptyString => Some c
  | String _ rest => last_char rest
  end.

Definition plain (c : ascii) : bool := negb (JS.blank1 c) && JS.between 0 127 c.

Definition ends_plain (s : string) : bool :=
  match last_char s with
  | Some c => plain c
  | None => false
  end.

(** The cache-first strategy in the words of the specification (the table
    of its section 4.2): the cache is asked first; an entry that exists and
    is 2xx is returned as a cache hit; otherwise the network is tried and its
    response returned as it is, or the error response if the fetch throws.
    One line is logged, tagged cache-first.  [fetchCore] is compared with it. *)
Definition CacheFirst_strategy (request : Request)
    (networkFetch : RequestInfo -> Promise Response)
    (fileCache : fetchCore.FileCache) (targetClientId : string)
    (log : LogFn) (shouldLog : bool) : Promise Response :=
  cached <- fetchCore.getFile fileCache (url request) targetClientId ;;
  logRequest "cache-first" request log shouldLog cached ;;
  match usable cached with
  | Some entry => resolve (cacheHit entry)
  | None =>
      try (res <- networkFetch (OfRequest request) ;; resolve res)
      catch err => resolve (errorResponse err)
  end.

End Installed.

(** ** Sample hosts, requests and events *)

Module Sample.
Import Fetch Async serviceWorkerMeta Installed.

Definition donuts : string := "https://donuts.com".

Definition assets : Assets := mkAssets "<html></html>" 13 "export {}" 9.

Definition requestTo (u : string) (h : Headers) : Request := mkRequest u h "cors" "script".

Definition eventFor (u : string) : fetchHandler.FetchHandlerEvent :=
  fetchHandler.mkEvent (requestTo u []) "client-1" EmptyString.

Definition fetched : Response := new_Response "network text" (mkInit 200 "OK" []).
Definition forbidden : Response := new_Response "no entry" (mkInit 403 "FORBIDDEN" []).
Definition cached : Response := new_Response "cache text" (mkInit 200 "OK" []).

(** A template request as the tests of the handler build it: both
    parameters passed through [encodeURIComponent]. *)
Definition templateUrl : string :=
  "https://donuts.com/runProgram?csp=default-src%20'self'%3B&entry=https%3A%2F%2Fpizza.com%2Findex.js".

(** Two requests under the entry-script URL that differ in everything
    else: the rest of the URL, the headers, the mode, the client. *)
Definition scriptWithQuery : fetchHandler.FetchHandlerEvent :=
  eventFor "https://donuts.com/secure.compiled.js?q=true".

Definition scriptWithSuffix : fetchHandler.FetchHandlerEvent :=
  fetchHandler.mkEvent
    (mkRequest "https://donuts.com/secure.compiled.js.map/x" [("Sw-Policy", "4")]
       "no-cors" "document")
    EmptyString "client-2".

Definition failure : JS.Value := JS.Error "TypeError" "Failed to fetch".

(** A host whose network and whose file cache answer every call alike. *)
Definition host_with (net : Settled Response) (file : option Response) : Host :=
  mkHost (fun _ => net) (fun _ _ => Fulfilled file).

Definition offline : Host := host_with (Rejected failure) None.
Definition offline_cached : Host := host_with (Rejected failure) (Some cached).
Definition offline_stale : Host := host_with (Rejected failure) (Some forbidden).
Definition online_cached : Host := host_with (Fulfilled fetched) (Some cached).
Definition online : Host := host_with (Fulfilled fetched) None.

End Sample.

(** ** [serviceWorker/index.ts]: the worker as it is deployed

    The cache resolver and the options it gives [createFetchHandler].  The
    platform enters through three functions: [clients.get], the remote call
    [rpc.executeWithSource] that asks a client for a file, and what
    [Headers] makes of a header value that comes from outside (the value
    normalized, or a TypeError). *)

Module serviceWorker.
Import Fetch Async serviceWorkerMeta.

(** A client of the worker, as [clients.get] returns it. *)
Record Client : Type := mkClient
  { client_id : string;
    client_url : string }.

(** What a property of the reply holds, as far as the resolver tells
    values apart. *)
Inductive Field : Type :=
| Stream (bytes : string)    (* a ReadableStream and the bytes it yields *)
| Text (s : string)          (* a string *)
| Numeric (shown : string)   (* a number, given by what ToString makes of it *)
| Other.                     (* any other value, undefined included *)

(** What the remote call resolves to. *)
Inductive Reply : Type :=
| NotObject                              (* typeof is not object *)
| Null
| File (body type length : Field).       (* an object and three of its properties *)

Record Worker : Type := mkWorker
  { clients_get : string -> Settled (option Client);
    executeWithSource : string -> Client -> string -> Settled Reply;
    header_value : string -> option string }.

Inductive WorkerCall : Type :=
| ClientsGet (id : string)
| Execute (name : string) (client : Client) (url : string).

Definition TypeError : JS.Value := JS.Error "TypeError" "Invalid value".

(** [fileCache.getClientFile] with the calls it makes, in order. *)
Definition getClientFile (w : Worker) (url clientId : string)
  : list WorkerCall * Settled (option Response) :=
  match clients_get w clientId with
  | Rejected e => ([ClientsGet clientId], Rejected e)
  | Fulfilled None => ([ClientsGet clientId], Fulfilled None)
  | Fulfilled (Some client) =>
      let calls := [ClientsGet clientId; Execute "getFile" client url] in
      match executeWithSource w "getFile" client url with
      | Rejected e => (calls, Rejected e)
      | Fulfilled NotObject => (calls, Fulfilled None)
      | Fulfilled Null => (calls, Fulfilled None)
      | Fulfilled (File (Stream bytes) (Text type) (Numeric length)) =>
          match header_value w type, header_value w length with
          | Some t, Some l =>
              (calls,
               Fulfilled (Some (new_Response bytes
                                  (mkInit 200 "OK"
                                     [("content-type", t); ("content-length", l)]))))
          | _, _ => (calls, Rejected TypeError)
          end
      | Fulfilled (File _ _ _) => (calls, Fulfilled None)
      end
  end.

(** [sw.location.origin.startsWith("http://locahost")], spelt as the
    source spells it. *)
Definition DEV_MODE (origin : string) : bool := JS.startsWith origin "http://locahost".

Definition accessHeaders (origin : string) : Object :=
  if DEV_MODE origin
  then [("Access-Control-Allow-Origin", "http://localhost:5173")]
  else [("Access-Control-Allow-Origin", "*")].

Definition inMemoryDocumentHeaders (origin : string) : Object :=
  spread [("Cross-Origin-Embedder-Policy", "require-corp");
          ("Cross-Origin-Opener-Policy", "same-origin");
          ("Cross-Origin-Resource-Policy", "cross-origin");
          ("Vary", "origin")]
         (accessHeaders origin).

Definition config : fetchHandler.ConfigReference := fetchHandler.mkConfig false.

(** The host the deployed worker runs on: the network, and as file cache
    what [getClientFile] settles to. *)
Definition host (network : RequestInfo -> Settled Response) (w : Worker) : Host :=
  mkHost network (fun url clientId => snd (getClientFile w url clientId)).

(** [fetchHandler], the handler installed as [sw.onfetch], for the worker
    at [origin]. *)
Definition fetchHandler (assets : Installed.Assets)
    (network : RequestInfo -> Settled Response) (w : Worker) (origin : string)
  : fetchHandler.FetchHandlerEvent -> Promise Response :=
  fetchHandler.createFetchHandler
    (Installed.IndexHtml assets) (Installed.SecureMjs assets)
    (Installed.INDEX_HTML_LENGTH assets) (Installed.SECURE_MJS_LENGTH assets)
    (fetchHandler.mkOptions origin
       (fetchHandler.mkFileCache (host_getClientFile (host network w)))
       (host_fetch (host network w))
       (Some (inMemoryDocumentHeaders origin))
       host_log config).

End serviceWorker.

(** ** [dev/inlineCoreFiles.mjs]: the assets the build inlines

    The script reads the two files as UTF-8 text, writes each as a JSON
    string (which the router imports back as the same text) and writes
    their byte lengths as the two constants of [inlinedMeta.ts]. *)

Module inlineCoreFiles.

(** [new TextEncoder().encode(str).length]; the parameter defaults to the
    empty string. *)
Definition byteLength (str : option string) : nat :=
  String.length (match str with Some s => s | None => EmptyString end).

(** What the router imports after the script has run on the two texts. *)
Definition inlined (htmlString jsString : string) : Installed.Assets :=
  Installed.mkAssets
    htmlString (byteLength (Some htmlString))
    jsString (byteLength (Some jsString)).

End inlineCoreFiles.

(** ** What a trace shows, and further samples *)

Module Observed.
Import Fetch Async.

(** The lines handed to the logger. *)
Definition log_lines (t : Trace) : list string :=
  flat_map (fun c => match c with Log m => [m] | _ => [] end) t.

(** A request from a page whose host name merely extends the name of the
    origin. *)
Definition lookalike : fetchHandler.FetchHandlerEvent :=
  Sample.eventFor "https://donuts.com.evil.org/index.js".

(** A response already marked as a cache hit. *)
Definition marked : Response := serviceWorkerMeta.cacheHit Sample.cached.

(** A worker with one client, which answers every request for a file with
    a script of nine bytes, and a platform that takes header values as
    they are. *)
Definition page : serviceWorker.Client :=
  serviceWorker.mkClient "client-1" "https://donuts.com/runProgram".

Definition worker : serviceWorker.Worker :=
  serviceWorker.mkWorker
    (fun id => Fulfilled (if String.eqb id "client-1" then Some page else None))
    (fun _ _ _ =>
       Fulfilled (serviceWorker.File (serviceWorker.Stream "export {}")
                    (serviceWorker.Text "text/javascript")
                    (serviceWorker.Numeric "9")))
    Some.

Definition served : Response :=
  new_Response "export {}"
    (mkInit 200 "OK" [("content-type", "text/javascript"); ("content-length", "9")]).

Definition down : RequestInfo -> Settled Response := fun _ => Rejected Sample.failure.

End Observed.

(** * Properties *)

Import Fetch Async serviceWorkerMeta Installed.

(** ** The canonical responses *)

Lemma errorResponse_network_error (cause : JS.Value) :
  network_error cause (errorResponse cause).
Proof. repeat split. Qed.

Lemma cacheHit_cache_hit_of (entry : Response) : cache_hit_of entry (cacheHit entry).
Proof. repeat split. Qed.

Lemma NOT_FOUND_RESPONSE_status : status NOT_FOUND_RESPONSE = 404%Z.
Proof. reflexivity. Qed.

(** ** The policy engine *)

(** Unfolds a run of the engine down to the answers of the host. *)
Ltac settle :=
  cbv [run engine CacheFirst_strategy fetchCore.fetchCore fetchCore.safeRequest
       logRequest await try_catch resolve reject host_fetch host_getClientFile
       host_log fetchCore.getFile policy_header] in *.

(** Evaluates the three tests of the switch for the header value [v];
    [only], [first] and [cache] are what they give. *)
Ltac selects v only first cache :=
  change (JS.strict_eq (JS.parseInt (JS.or_else v fetchCore.CACHE_FIRST) 10)
            NETWORK_ONLY_POLICY) with only;
  change (JS.strict_eq (JS.parseInt (JS.or_else v fetchCore.CACHE_FIRST) 10)
            NETWORK_FIRST_POLICY) with first;
  change (JS.strict_eq (JS.parseInt (JS.or_else v fetchCore.CACHE_FIRST) 10)
            CACHE_ONLY_POLICY) with cache;
  cbv iota.

(** C1. Network-first: the response of the network is returned as it is,
    whatever its status, and the cache is not asked; when the fetch rejects
    the cache is asked once, and the answer is the entry marked as a cache
    hit exactly when it exists and is 2xx, and otherwise the 500 response
    that carries the error header. *)
Theorem networkFirst_policy (host : Host) (shouldLog : bool) (id : string)
    (request : Request) :
  policy_header request = Some "1" ->
  let result := run (engine host shouldLog id request) in
  network_calls (fst result) = [OfRequest request]
  /\ match network host (OfRequest request) with
     | Fulfilled res => cache_calls (fst result) = [] /\ snd result = Fulfilled res
     | Rejected err =>
         cache_calls (fst result) = [(url request, id)]
         /\ network_error err (errorResponse err)
         /\ match files host (url request) id with
            | Fulfilled cached =>
                match usable cached with
                | Some entry => snd result = Fulfilled (cacheHit entry)
                | None => snd result = Fulfilled (errorResponse err)
                end
            | Rejected e => snd result = Rejected e
            end
     end.
Proof.
  intros Hp. settle. rewrite Hp. selects (Some "1") false true false.
  destruct (network host (OfRequest request)) as [res | err].
  - destruct shouldLog; cbn; auto.
  - destruct (files host (url request) id) as [[entry | ] | e];
      destruct shouldLog; cbn; try destruct (ok entry);
      repeat split; reflexivity.
Qed.

(** An instance: the network is down and the cache holds a 403 entry,
    which is not served. *)
Lemma networkFirst_policy_witness :
  policy_header (Sample.requestTo "https://pizza.com/index.js" [("Sw-Policy", "1")])
  = Some "1"
  /\ snd (run (engine Sample.offline_stale true "client-1"
                 (Sample.requestTo "https://pizza.com/index.js" [("Sw-Policy", "1")])))
     = Fulfilled (errorResponse Sample.failure).
Proof.
  split; [ reflexivity | ].
  exact (proj2 (proj2 (proj2
    (networkFirst_policy Sample.offline_stale true "client-1"
       (Sample.requestTo "https://pizza.com/index.js" [("Sw-Policy", "1")])
       eq_refl)))).
Defined.

(** C2. Cache-first, the policy of a request with no policy header (or
    with the code 3): the cache is asked first; an entry that is 2xx is
    returned marked as a cache hit and the network is not called; with no
    entry, or one that is not 2xx, the network is called and its response
    returned as it is, and if that fetch rejects the answer is the 500
    response that carries the error header. *)
Theorem cacheFirst_policy (host : Host) (shouldLog : bool) (id : string)
    (request : Request) :
  policy_header request = None \/ policy_header request = Some "3" ->
  let result := run (engine host shouldLog id request) in
  cache_calls (fst result) = [(url request, id)]
  /\ match files host (url request) id with
     | Fulfilled cached =>
         match usable cached with
         | Some entry =>
             network_calls (fst result) = []
             /\ snd result = Fulfilled (cacheHit entry)
         | None =>
             network_calls (fst result) = [OfRequest request]
             /\ match network host (OfRequest request) with
                | Fulfilled res => snd result = Fulfilled res
                | Rejected err =>
                    snd result = Fulfilled (errorResponse err)
                    /\ network_error err (errorResponse err)
                end
         end
     | Rejected e => network_calls (fst result) = [] /\ snd result = Rejected e
     end.
Proof.
  intros Hp. settle.
  assert (E : JS.or_else (get (request_headers request) serviceWorkerPolicyHeader)
                fetchCore.CACHE_FIRST = "3") by (destruct Hp as [-> | ->]; reflexivity).
  rewrite E. clear E Hp.
  change (JS.strict_eq (JS.parseInt "3" 10) NETWORK_ONLY_POLICY) with false.
  change (JS.strict_eq (JS.parseInt "3" 10) NETWORK_FIRST_POLICY) with false.
  change (JS.strict_eq (JS.parseInt "3" 10) CACHE_ONLY_POLICY) with false.
  cbv iota.
  destruct (files host (url request) id) as [[entry | ] | e].
  - destruct shouldLog; cbn; destruct (ok entry); cbn;
      try destruct (network host (OfRequest request)); repeat split; reflexivity.
  - destruct shouldLog; cbn;
      destruct (network host (OfRequest request)); repeat split; reflexivity.
  - destruct shouldLog; cbn; auto.
Qed.

(** An instance: no policy header, and the cache holds a 200 entry. *)
Lemma cacheFirst_policy_witness :
  (policy_header (Sample.requestTo "https://pizza.com/index.js" []) = None
   \/ policy_header (Sample.requestTo "https://pizza.com/index.js" []) = Some "3")
  /\ snd (run (engine Sample.online_cached false "client-1"
                 (Sample.requestTo "https://pizza.com/index.js" [])))
     = Fulfilled (cacheHit Sample.cached).
Proof.
  split; [ left; reflexivity | ].
  exact (proj2 (proj2
    (cacheFirst_policy Sample.online_cached false "client-1"
       (Sample.requestTo "https://pizza.com/index.js" [])
       (or_introl eq_refl)))).
Defined.

(** C3. Cache-only: the network is never called; an entry of the cache
    is returned with the cache-hit header added, whatever its status, and
    with no entry the constant 404 response is returned. *)
Theorem cacheOnly_policy (host : Host) (shouldLog : bool) (id : string)
    (request : Request) :
  policy_header request = Some "4" ->
  let result := run (engine host shouldLog id request) in
  network_calls (fst result) = []
  /\ cache_calls (fst result) = [(url request, id)]
  /\ match files host (url request) id with
     | Fulfilled (Some entry) =>
         snd result = Fulfilled (cacheHit entry)
         /\ cache_hit_of entry (cacheHit entry)
     | Fulfilled None =>
         snd result = Fulfilled NOT_FOUND_RESPONSE
         /\ status NOT_FOUND_RESPONSE = 404%Z
     | Rejected e => snd result = Rejected e
     end.
Proof.
  intros Hp. settle. rewrite Hp. selects (Some "4") false false true.
  destruct (files host (url request) id) as [[entry | ] | e];
    destruct shouldLog; cbn; repeat apply conj; try reflexivity;
    first [ apply cacheHit_cache_hit_of | apply NOT_FOUND_RESPONSE_status ].
Qed.

(** An instance: the cache holds nothing for the URL. *)
Lemma cacheOnly_policy_witness :
  policy_header (Sample.requestTo "https://pizza.com/index.js" [("Sw-Policy", "4")])
  = Some "4"
  /\ snd (run (engine Sample.online false "client-1"
                 (Sample.requestTo "https://pizza.com/index.js" [("Sw-Policy", "4")])))
     = Fulfilled NOT_FOUND_RESPONSE.
Proof.
  split; [ reflexivity | ].
  exact (proj1 (proj2 (proj2
    (cacheOnly_policy Sample.online false "client-1"
       (Sample.requestTo "https://pizza.com/index.js" [("Sw-Policy", "4")])
       eq_refl)))).
Defined.

(** C4. Network-only: the cache is never asked; the response of the
    network is returned as it is, whatever its status, and when the fetch
    rejects the answer is the 500 response that carries the error header and
    whose body is the cause as a string. *)
Theorem networkOnly_policy (host : Host) (shouldLog : bool) (id : string)
    (request : Request) :
  policy_header request = Some "2" ->
  let result := run (engine host shouldLog id request) in
  cache_calls (fst result) = []
  /\ network_calls (fst result) = [OfRequest request]
  /\ match network host (OfRequest request) with
     | Fulfilled res => snd result = Fulfilled res
     | Rejected err =>
         snd result = Fulfilled (errorResponse err)
         /\ network_error err (errorResponse err)
     end.
Proof.
  intros Hp. settle. rewrite Hp. selects (Some "2") true false false.
  destruct (network host (OfRequest request)) as [res | err];
    destruct shouldLog; cbn; repeat split; reflexivity.
Qed.

(** An instance: the network is down; the cached entry is not looked at. *)
Lemma networkOnly_policy_witness :
  policy_header (Sample.requestTo "https://pizza.com/index.js" [("sw-policy", "2")])
  = Some "2"
  /\ (snd (run (engine Sample.offline_cached true "client-1"
                  (Sample.requestTo "https://pizza.com/index.js" [("sw-policy", "2")])))
      = Fulfilled (errorResponse Sample.failure)
      /\ network_error Sample.failure (errorResponse Sample.failure)).
Proof.
  split; [ reflexivity | ].
  exact (proj2 (proj2
    (networkOnly_policy Sample.offline_cached true "client-1"
       (Sample.requestTo "https://pizza.com/index.js" [("sw-policy", "2")])
       eq_refl))).
Defined.

(** *** Which policy a header value selects *)

Lemma strict_eq_false (n : JS.Number) (z : Z) : n <> JS.Num z -> JS.strict_eq n z = false.
Proof.
  destruct n as [ | y]; simpl; [ reflexivity | ].
  intros H. apply Z.eqb_neq. intros ->. apply H. reflexivity.
Qed.

(** C5, as amended.  A request with no policy header, or whose header
    value [parseInt] reads as anything but 1, 2 or 4 (NaN included), is
    resolved by the cache-first strategy, whatever functions the engine is
    given. *)
Theorem policy_selection (request : Request)
    (networkFetch : RequestInfo -> Promise Response)
    (fileCache : fetchCore.FileCache) (id : string) (log : LogFn) (shouldLog : bool) :
  (forall v, policy_header request = Some v ->
             ~ In (JS.parseInt v 10) [JS.Num 1; JS.Num 2; JS.Num 4]) ->
  forall t,
    fetchCore.fetchCore request networkFetch fileCache id log shouldLog t
    = CacheFirst_strategy request networkFetch fileCache id log shouldLog t.
Proof.
  intros Hp t.
  assert (E : forall z, In (JS.Num z) [JS.Num 1; JS.Num 2; JS.Num 4] ->
     JS.strict_eq (JS.parseInt (JS.or_else (policy_header request)
                                  fetchCore.CACHE_FIRST) 10) z = false).
  { intros z Hz. destruct (policy_header request) as [v | ] eqn:Hv.
    - destruct v as [ | c v'].
      + simpl in Hz. destruct Hz as [Hz | [Hz | [Hz | []]]];
          injection Hz as <-; reflexivity.
      + apply strict_eq_false. intros Heq. apply (Hp _ eq_refl).
        simpl JS.or_else in Heq. rewrite Heq. exact Hz.
    - simpl in Hz. destruct Hz as [Hz | [Hz | [Hz | []]]];
        injection Hz as <-; reflexivity. }
  unfold fetchCore.fetchCore, CacheFirst_strategy.
  fold (policy_header request). cbv zeta.
  rewrite (E NETWORK_ONLY_POLICY), (E NETWORK_FIRST_POLICY), (E CACHE_ONLY_POLICY)
    by (simpl; auto).
  unfold await.
  destruct (fetchCore.getFile fileCache (url request) id t) as [t1 [[entry | ] | e]];
    try reflexivity;
    destruct (logRequest fetchCore.cachefirstTag request log shouldLog _ t1)
      as [t2 [[] | e]] eqn:L;
    unfold fetchCore.cachefirstTag in L; rewrite L; simpl; try reflexivity.
  destruct (ok entry); reflexivity.
Qed.

(** An instance: a header value with no digit in front. *)
Lemma policy_selection_witness :
  (forall v, policy_header (Sample.requestTo "https://pizza.com/index.js"
                              [("Sw-Policy", "cache-first")]) = Some v ->
             ~ In (JS.parseInt v 10) [JS.Num 1; JS.Num 2; JS.Num 4])
  /\ run (engine Sample.online_cached true "client-1"
            (Sample.requestTo "https://pizza.com/index.js"
               [("Sw-Policy", "cache-first")]))
     = run (CacheFirst_strategy
              (Sample.requestTo "https://pizza.com/index.js"
                 [("Sw-Policy", "cache-first")])
              (host_fetch Sample.online_cached)
              (fetchCore.mkFileCache (host_getClientFile Sample.online_cached))
              "client-1" host_log true).
Proof.
  assert (H : forall v, policy_header (Sample.requestTo "https://pizza.com/index.js"
                              [("Sw-Policy", "cache-first")]) = Some v ->
             ~ In (JS.parseInt v 10) [JS.Num 1; JS.Num 2; JS.Num 4]).
  { intros v Hv. injection Hv as <-. simpl.
    intros [H | [H | [H | []]]]; discriminate H. }
  split; [ exact H | ].
  exact (policy_selection _ _ _ _ _ _ H []).
Defined.

(** C5, as the specification states it, fails: the header value 1abc is
    none of the four policy codes, yet [parseInt] reads it as 1 and the
    request is resolved network-first, here with the response of the network
    where the cache-first strategy returns the cached entry. *)
Lemma policy_selection_counterexample :
  let request :=
    Sample.requestTo "https://pizza.com/index.js" [("Sw-Policy", "1abc")] in
  policy_header request = Some "1abc"
  /\ ~ In "1abc" ["1"; "2"; "3"; "4"]
  /\ snd (run (engine Sample.online_cached false "client-1" request))
     = Fulfilled Sample.fetched
  /\ snd (run (CacheFirst_strategy request (host_fetch Sample.online_cached)
                 (fetchCore.mkFileCache (host_getClientFile Sample.online_cached))
                 "client-1" host_log false))
     = Fulfilled (cacheHit Sample.cached)
  /\ run (engine Sample.online_cached false "client-1" request)
     <> run (CacheFirst_strategy request (host_fetch Sample.online_cached)
               (fetchCore.mkFileCache (host_getClientFile Sample.online_cached))
               "client-1" host_log false).
Proof.
  cbv zeta. split; [ reflexivity | ]. split.
  - simpl. intros [H | [H | [H | [H | []]]]]; discriminate H.
  - split; [ reflexivity | ]. split; [ reflexivity | ].
    vm_compute. intros H. discriminate H.
Qed.

(** ** Strings: prefixes *)

Lemma append_assoc (a b c : string) : (a ++ b) ++ c = a ++ (b ++ c).
Proof. induction a as [ | x a IH]; simpl; [ reflexivity | now rewrite IH ]. Qed.

Lemma prefix_append (p r : string) : String.prefix p (p ++ r) = true.
Proof.
  induction p as [ | x p IH]; simpl; [ destruct r; reflexivity | ].
  destruct (ascii_dec x x) as [_ | N]; [ exact IH | contradiction N; reflexivity ].
Qed.

Lemma prefix_inv (p s : string) :
  String.prefix p s = true -> exists r, s = p ++ r.
Proof.
  revert s. induction p as [ | x p IH]; intros s H.
  - exists s. reflexivity.
  - destruct s as [ | y s]; simpl in H; [ discriminate | ].
    destruct (ascii_dec x y) as [<- | _]; [ | discriminate ].
    destruct (IH s H) as [r ->]. exists r. reflexivity.
Qed.

Lemma prefix_common (o x y : string) :
  String.prefix (o ++ x) (o ++ y) = String.prefix x y.
Proof.
  induction o as [ | c o IH]; simpl; [ reflexivity | ].
  destruct (ascii_dec c c) as [_ | N]; [ exact IH | contradiction N; reflexivity ].
Qed.

Lemma eqb_common (o x y : string) :
  String.eqb (o ++ x) (o ++ y) = String.eqb x y.
Proof.
  induction o as [ | c o IH]; simpl; [ reflexivity | ].
  rewrite Ascii.eqb_refl. exact IH.
Qed.

(** A URL that starts with [origin ++ path] is [origin ++ (path ++ rest)]. *)
Lemma startsWith_path (u origin path : string) :
  JS.startsWith u (origin ++ path) = true ->
  exists rest, u = origin ++ (path ++ rest).
Proof.
  intros H. destruct (prefix_inv _ _ H) as [r ->].
  exists r. apply append_assoc.
Qed.


(** ** Headers built from an object literal and a spread *)

Lemma new_Headers_from (o : Object) (h : Headers) :
  fold_left (fun h kv => append h (fst kv) (snd kv)) o h = (h ++ o)%list.
Proof.
  revert h. induction o as [ | [k v] o IH]; intros h; simpl.
  - now rewrite app_nil_r.
  - rewrite IH. unfold append. now rewrite <- app_assoc.
Qed.

Lemma new_Headers_same (o : Object) : new_Headers o = o.
Proof. unfold new_Headers. now rewrite new_Headers_from. Qed.

Lemma has_set (o : Object) (k v name : string) :
  has (set o k v) name = has o name || same_name k name.
Proof.
  induction o as [ | [k' v'] o IH]; simpl.
  - now rewrite orb_false_r.
  - destruct (String.eqb_spec k' k) as [-> | N]; simpl.
    + destruct (same_name k name); simpl; [ reflexivity | now rewrite orb_false_r ].
    + rewrite IH. now rewrite orb_assoc.
Qed.

Lemma has_spread (o extra : Object) (name : string) :
  has o name = true -> has (spread o extra) name = true.
Proof.
  unfold spread. revert o. induction extra as [ | [k v] extra IH]; intros o H; simpl.
  - exact H.
  - apply IH. rewrite has_set, H. reflexivity.
Qed.

Lemma values_set (o : Object) (k v name : string) :
  same_name k name = false -> values (set o k v) name = values o name.
Proof.
  intros N. unfold values. induction o as [ | [k' v'] o IH]; simpl.
  - now rewrite N.
  - destruct (String.eqb_spec k' k) as [-> | _]; simpl.
    + now rewrite N.
    + destruct (same_name k' name); simpl; now rewrite IH.
Qed.

Lemma values_spread (o extra : Object) (name : string) :
  has extra name = false -> values (spread o extra) name = values o name.
Proof.
  unfold spread. revert o. induction extra as [ | [k v] extra IH]; intros o H; simpl.
  - reflexivity.
  - simpl in H. apply orb_false_elim in H as [Hk He].
    rewrite (IH _ He). now apply values_set.
Qed.

(** What the router builds in memory: the response with its two headers,
    the extra headers spread over them, and the cache-hit header last.  No
    default content type is added, since one is always given. *)
Lemma in_memory_response (text contentType len : string) (extra : Object) :
  cacheHit
    (new_Response text
       (mkInit 200 "OK"
          (spread [("content-type", contentType); ("content-length", len)] extra)))
  = mkResponse 200 "OK"
      (spread [("content-type", contentType); ("content-length", len)] extra
       ++ [("X-Cache-Hit", "SW HIT")])%list
      text.
Proof.
  unfold cacheHit, new_Response. simpl. rewrite new_Headers_same.
  rewrite has_spread by reflexivity. reflexivity.
Qed.

Lemma rendered_response (text contentType len : string) (extra : Object) :
  new_Response text
    (mkInit 200 "OK"
       (spread [("content-type", contentType); ("content-length", len)] extra))
  = mkResponse 200 "OK"
      (spread [("content-type", contentType); ("content-length", len)] extra)
      text.
Proof.
  unfold new_Response. simpl. rewrite new_Headers_same.
  rewrite has_spread by reflexivity. reflexivity.
Qed.

Lemma values_app (h t : Headers) (name : string) :
  values (h ++ t)%list name = (values h name ++ values t name)%list.
Proof. unfold values. now rewrite filter_app, map_app. Qed.

Lemma values_absent (h : Headers) (name : string) :
  has h name = false -> values h name = [].
Proof.
  unfold has, values. induction h as [ | [k v] h IH]; simpl; [ reflexivity | ].
  destruct (same_name k name); simpl; [ discriminate | exact IH ].
Qed.

(** A header of the literal is read back as written when neither the extra
    headers nor what is appended afterwards name it. *)
Lemma get_spread_append (o extra : Object) (tail : Headers) (name : string) :
  has extra name = false -> has tail name = false ->
  get (spread o extra ++ tail)%list name = get o name.
Proof.
  intros He Ht. unfold get.
  rewrite values_app, (values_absent tail name Ht), app_nil_r.
  now rewrite (values_spread o extra name He).
Qed.

(** ** The router: which route a URL takes *)

Section Routes.

Variables (IndexHtml SecureMjs : string) (INDEX_HTML_LENGTH SECURE_MJS_LENGTH : nat).
Variable options : fetchHandler.FetchHandlerOptions.

Let handler : fetchHandler.FetchHandlerEvent -> Promise Response :=
  fetchHandler.createFetchHandler
    IndexHtml SecureMjs INDEX_HTML_LENGTH SECURE_MJS_LENGTH options.
Let origin : string := fetchHandler.origin options.
Let extra : Object := extra_headers (fetchHandler.inMemoryDocumentHeaders options).

Lemma route_root (event : fetchHandler.FetchHandlerEvent) :
  url (fetchHandler.request event) = origin ++ "/" ->
  handler event
  = (try (res <- fetchHandler.networkFetch options
                   (OfRequest (fetchHandler.request event)) ;;
          resolve res)
     catch err =>
       resolve (cacheHit
         (new_Response IndexHtml
            (mkInit 200 "OK"
               (spread [("content-type", "text/html");
                        ("content-length", JS.nat_toString INDEX_HTML_LENGTH)]
                       extra))))).
Proof.
  intros H. unfold origin in H.
  unfold handler, fetchHandler.createFetchHandler, JS.startsWith. cbv zeta.
  rewrite H, prefix_append, String.eqb_refl. reflexivity.
Qed.

Lemma route_entry_script (event : fetchHandler.FetchHandlerEvent) :
  JS.startsWith (url (fetchHandler.request event)) (origin ++ "/secure.compiled.js")
  = true ->
  handler event
  = (try (res <- fetchHandler.networkFetch options
                   (OfString (origin ++ "/secure.compiled.js")) ;;
          resolve res)
     catch err =>
       resolve (cacheHit
         (new_Response SecureMjs
            (mkInit 200 "OK"
               (spread [("content-type", "text/javascript");
                        ("content-length", JS.nat_toString SECURE_MJS_LENGTH)]
                       extra))))).
Proof.
  intros H. destruct (startsWith_path _ _ _ H) as [rest E]. unfold origin in E.
  unfold handler, fetchHandler.createFetchHandler, JS.startsWith. cbv zeta.
  rewrite E, prefix_append, eqb_common, !prefix_common.
  replace (String.eqb ("/secure.compiled.js" ++ rest) "/") with false by reflexivity.
  replace (String.prefix config.RUN_PROGRAM_PATHNAME ("/secure.compiled.js" ++ rest))
    with false by reflexivity.
  rewrite (prefix_append "/secure.compiled.js" rest). reflexivity.
Qed.

Lemma route_test_probe (event : fetchHandler.FetchHandlerEvent) :
  JS.startsWith (url (fetchHandler.request event)) (origin ++ "/test.mjs") = true ->
  handler event
  = fetchHandler.networkFetch options (OfRequest (fetchHandler.request event)).
Proof.
  intros H. destruct (startsWith_path _ _ _ H) as [rest E]. unfold origin in E.
  unfold handler, fetchHandler.createFetchHandler, JS.startsWith. cbv zeta.
  rewrite E, prefix_append, eqb_common, !prefix_common.
  replace (String.eqb ("/test.mjs" ++ rest) "/") with false by reflexivity.
  replace (String.prefix config.RUN_PROGRAM_PATHNAME ("/test.mjs" ++ rest))
    with false by reflexivity.
  replace (String.prefix "/secure.compiled.js" ("/test.mjs" ++ rest))
    with false by reflexivity.
  rewrite (prefix_append "/test.mjs" rest). reflexivity.
Qed.

Lemma route_template (event : fetchHandler.FetchHandlerEvent) :
  JS.startsWith (url (fetchHandler.request event))
    (origin ++ config.RUN_PROGRAM_PATHNAME) = true ->
  handler event
  = (let u := url (fetchHandler.request event) in
     if (length (template_query u) <? 2)%nat then
       resolve (errorResponse (JS.Str "template endpoint must have query"))
     else if negb (URL.has (template_params u) "csp")
             || negb (URL.has (template_params u) "entry") then
       resolve (errorResponse
         (JS.Str "template endpoint have both an 'csp' and 'entry' query"))
     else
       match URL.decodeURIComponent
               (JS.or_else (URL.get (template_params u) "csp") EmptyString) with
       | None => reject URL.URIError
       | Some securityPolicy =>
           match URL.decodeURIComponent
                   (JS.or_else (URL.get (template_params u) "entry") EmptyString) with
           | None => reject URL.URIError
           | Some importSource =>
               resolve
                 (template_response
                    (fetchHandler.generateTemplate importSource securityPolicy)
                    extra)
           end
       end).
Proof.
  intros H. destruct (startsWith_path _ _ _ H) as [rest E]. unfold origin in E, H.
  assert (T1 : JS.startsWith (url (fetchHandler.request event))
                 (fetchHandler.origin options) = true)
    by (rewrite E; apply prefix_append).
  assert (T2 : String.eqb (url (fetchHandler.request event))
                 (fetchHandler.origin options ++ "/") = false)
    by (rewrite E, eqb_common; reflexivity).
  unfold handler, fetchHandler.createFetchHandler. cbv zeta.
  rewrite T1, T2, H. unfold template_query, template_params.
  destruct (length (JS.split "?" (url (fetchHandler.request event))) <? 2)%nat;
    [ reflexivity | ].
  destruct (negb _ || negb _); [ reflexivity | ].
  destruct (URL.decodeURIComponent _); [ | reflexivity ].
  destruct (URL.decodeURIComponent _); [ | reflexivity ].
  unfold template_response, extra, extra_headers.
  now rewrite rendered_response.
Qed.

(** Any two requests on the entry-script route are handled by the same
    computation, whatever functions the router was given. *)
Lemma route_entry_script_same (e1 e2 : fetchHandler.FetchHandlerEvent) :
  JS.startsWith (url (fetchHandler.request e1)) (origin ++ "/secure.compiled.js")
  = true ->
  JS.startsWith (url (fetchHandler.request e2)) (origin ++ "/secure.compiled.js")
  = true ->
  handler e1 = handler e2.
Proof.
  intros H1 H2. now rewrite (route_entry_script e1 H1), (route_entry_script e2 H2).
Qed.

End Routes.

(** ** Trimming the template *)

Lemma blank2_high (c1 c2 : ascii) : JS.blank2 c1 c2 = true -> plain c2 = false.
Proof.
  unfold JS.blank2, plain, JS.blank1, JS.between, JS.byte_is.
  intros H. apply andb_prop in H as [_ H]. apply N.eqb_eq in H. rewrite H.
  reflexivity.
Qed.

Lemma blank3_high (c1 c2 c3 : ascii) : JS.blank3 c1 c2 c3 = true -> plain c3 = false.
Proof.
  unfold JS.blank3, plain, JS.between, JS.byte_is. intros H.
  assert (G : (128 <= JS.code c3)%N).
  { repeat match type of H with
           | (_ || _)%bool = true => apply orb_prop in H as [H | H]
           | (_ && _)%bool = true => apply andb_prop in H as [? H]
           end;
      repeat match goal with
             | X : (_ <=? _)%N = true |- _ => apply N.leb_le in X
             | X : (_ =? _)%N = true |- _ => apply N.eqb_eq in X
             end;
      lia. }
  apply andb_false_intro2. apply andb_false_intro2.
  apply N.leb_gt. lia.
Qed.

(** A string that is white space throughout does not end with a plain
    character. *)
Lemma all_blank_last (n : nat) :
  forall s, String.length s <= n -> JS.trimStart s = EmptyString ->
  ends_plain s = false.
Proof.
  induction n as [ | n IH]; intros s L H.
  - destruct s; [ reflexivity | simpl in L; lia ].
  - destruct s as [ | c1 r1]; [ reflexivity | ].
    simpl in L. simpl in H.
    destruct (JS.blank1 c1) eqn:B1.
    { destruct r1 as [ | c2 r2].
      - unfold ends_plain, plain. simpl. now rewrite B1.
      - change (ends_plain (String c1 (String c2 r2)))
          with (ends_plain (String c2 r2)).
        apply IH; [ lia | exact H ]. }
    destruct r1 as [ | c2 r2]; [ discriminate | ].
    destruct (JS.blank2 c1 c2) eqn:B2.
    { destruct r2 as [ | c3 r3].
      - unfold ends_plain. simpl. now apply blank2_high with c1.
      - change (ends_plain (String c1 (String c2 (String c3 r3))))
          with (ends_plain (String c3 r3)).
        apply IH; [ simpl in *; lia | exact H ]. }
    destruct r2 as [ | c3 r3]; [ discriminate | ].
    destruct (JS.blank3 c1 c2 c3) eqn:B3; [ | discriminate ].
    destruct r3 as [ | c4 r4].
    + unfold ends_plain. simpl. now apply blank3_high with c1 c2.
    + change (ends_plain (String c1 (String c2 (String c3 (String c4 r4)))))
        with (ends_plain (String c4 r4)).
      apply IH; [ simpl in *; lia | exact H ].
Qed.

Lemma trimEnd_plain (s : string) : ends_plain s = true -> JS.trimEnd s = s.
Proof.
  induction s as [ | c s IH]; intros H; [ reflexivity | ].
  simpl JS.trimEnd. unfold JS.all_blank.
  destruct (JS.trimStart (String c s)) eqn:T.
  - rewrite (all_blank_last _ _ (le_n _) T) in H. discriminate.
  - destruct s as [ | d s']; [ reflexivity | ].
    rewrite IH; [ reflexivity | exact H ].
Qed.

Lemma trimStart_plain (c : ascii) (s : string) :
  plain c = true -> JS.trimStart (String c s) = String c s.
Proof.
  unfold plain. intros H. apply andb_prop in H as [B1 A].
  apply negb_true_iff in B1. simpl. rewrite B1.
  assert (L : (JS.code c <= 127)%N).
  { unfold JS.between in A. apply andb_prop in A as [_ A]. now apply N.leb_le. }
  destruct s as [ | c2 r2]; [ reflexivity | ].
  replace (JS.blank2 c c2) with false.
  2:{ unfold JS.blank2, JS.byte_is. symmetry. apply andb_false_intro1.
      apply N.eqb_neq. lia. }
  destruct r2 as [ | c3 r3]; [ reflexivity | ].
  replace (JS.blank3 c c2 c3) with false; [ reflexivity | ].
  unfold JS.blank3, JS.byte_is.
  replace (JS.code c =? 225)%N with false by (symmetry; apply N.eqb_neq; lia).
  replace (JS.code c =? 226)%N with false by (symmetry; apply N.eqb_neq; lia).
  replace (JS.code c =? 227)%N with false by (symmetry; apply N.eqb_neq; lia).
  replace (JS.code c =? 239)%N with false by (symmetry; apply N.eqb_neq; lia).
  reflexivity.
Qed.

Lemma ends_plain_append (x y : string) :
  ends_plain y = true -> ends_plain (x ++ y) = true.
Proof.
  intros H. induction x as [ | c x IH]; [ exact H | ].
  simpl. destruct (x ++ y) eqn:E.
  - destruct x; simpl in E; [ subst y; discriminate H | discriminate E ].
  - exact IH.
Qed.

(** The template as rendered: the fixed text with the policy in the meta
    tag and the entry in the script tag, and nothing trimmed but the line
    break the literal starts with. *)
Lemma generateTemplate_text (importSource securityPolicy : string) :
  fetchHandler.generateTemplate importSource securityPolicy
  = document_head ++ csp_meta_tag securityPolicy ++ document_middle
    ++ root_script_tag importSource ++ document_tail.
Proof.
  unfold fetchHandler.generateTemplate, JS.trim.
  unfold document_head, csp_meta_tag, document_middle, root_script_tag,
    document_tail, JS.quoted.
  rewrite !append_assoc.
  match goal with
  | |- JS.trimEnd (JS.trimStart (fetchHandler.nl ++ ?rest)) = _ =>
      change (JS.trimStart (fetchHandler.nl ++ rest)) with (JS.trimStart rest)
  end.
  match goal with
  | |- JS.trimEnd (JS.trimStart ("<!DOCTYPE html>" ++ ?rest)) = _ =>
      change ("<!DOCTYPE html>" ++ rest) with (String "<" ("!DOCTYPE html>" ++ rest))
  end.
  rewrite trimStart_plain by reflexivity.
  apply trimEnd_plain.
  change (String "<" ("!DOCTYPE html>" ++ ?r)) with ("<!DOCTYPE html>" ++ r).
  repeat (apply ends_plain_append; try reflexivity).
Qed.

(** ** The router on a host *)

(** The test probe is handed to the network and nothing else: the router
    settles as the network does, rejection included. *)
Lemma test_probe_passthrough (assets : Assets) (host : Host) (origin : string)
    (extra : option Object) (shouldLog : bool)
    (event : fetchHandler.FetchHandlerEvent) :
  JS.startsWith (url (fetchHandler.request event)) (origin ++ "/test.mjs") = true ->
  run (handle assets host origin extra shouldLog event)
  = ([NetworkFetch (OfRequest (fetchHandler.request event))],
     network host (OfRequest (fetchHandler.request event))).
Proof.
  intros H. unfold handle. rewrite route_test_probe by exact H. reflexivity.
Qed.

(** C6 fails on the code.  A request for the test probe while the network
    is down: the handler rejects with the error of the fetch instead of
    resolving to a response. *)
Theorem test_probe_rejection :
  run (handle Sample.assets Sample.offline Sample.donuts None false
         (Sample.eventFor "https://donuts.com/test.mjs"))
  = ([NetworkFetch (OfRequest (Sample.requestTo "https://donuts.com/test.mjs" []))],
     Rejected (JS.Error "TypeError" "Failed to fetch")).
Proof.
  rewrite test_probe_passthrough by reflexivity.
  reflexivity.
Qed.




(** C7, as amended.  A template request with no query, or whose query has
    no csp or no entry parameter, is answered without a call to the network
    or the cache by the 500 response whose body is one of the two messages,
    and that response carries the error header. *)
Theorem template_usage_error (assets : Assets) (host : Host) (origin : string)
    (extra : option Object) (shouldLog : bool)
    (event : fetchHandler.FetchHandlerEvent) :
  let u := url (fetchHandler.request event) in
  JS.startsWith u (origin ++ config.RUN_PROGRAM_PATHNAME) = true ->
  length (template_query u) < 2
  \/ URL.has (template_params u) "csp" = false
  \/ URL.has (template_params u) "entry" = false ->
  exists message,
    run (handle assets host origin extra shouldLog event)
    = ([], Fulfilled (errorResponse (JS.Str message)))
    /\ network_error (JS.Str message) (errorResponse (JS.Str message))
    /\ (message = "template endpoint must have query"
        \/ message = "template endpoint have both an 'csp' and 'entry' query").
Proof.
  intros u Hu Hq. unfold handle. rewrite route_template by exact Hu.
  cbv zeta. fold u.
  destruct (Nat.ltb_spec (length (template_query u)) 2) as [L | L].
  - eexists. split; [ reflexivity | ].
    split; [ apply errorResponse_network_error | left; reflexivity ].
  - assert (P : negb (URL.has (template_params u) "csp")
                || negb (URL.has (template_params u) "entry") = true).
    { destruct Hq as [Hq | [-> | ->]];
        [ lia | reflexivity | apply orb_true_r ]. }
    rewrite P. eexists. split; [ reflexivity | ].
    split; [ apply errorResponse_network_error | right; reflexivity ].
Qed.

(** An instance: a query with csp and without entry. *)
Lemma template_usage_error_witness :
  JS.startsWith "https://donuts.com/runProgram?csp=true"
    (Sample.donuts ++ config.RUN_PROGRAM_PATHNAME) = true
  /\ URL.has (template_params "https://donuts.com/runProgram?csp=true") "entry" = false
  /\ exists message,
       run (handle Sample.assets Sample.online Sample.donuts None true
              (Sample.eventFor "https://donuts.com/runProgram?csp=true"))
       = ([], Fulfilled (errorResponse (JS.Str message)))
       /\ network_error (JS.Str message) (errorResponse (JS.Str message))
       /\ (message = "template endpoint must have query"
           \/ message = "template endpoint have both an 'csp' and 'entry' query").
Proof.
  split; [ reflexivity | ]. split; [ reflexivity | ].
  exact (template_usage_error Sample.assets Sample.online Sample.donuts None true
           (Sample.eventFor "https://donuts.com/runProgram?csp=true")
           eq_refl (or_intror (or_intror eq_refl))).
Defined.

(** C7, as the specification states it, fails: the template endpoint
    asked without a query answers 500 and the response does carry the error
    header. *)
Lemma template_usage_error_counterexample :
  let result :=
    run (handle Sample.assets Sample.online Sample.donuts None false
           (Sample.eventFor "https://donuts.com/runProgram")) in
  exists r,
    result = ([], Fulfilled r)
    /\ status r = 500%Z
    /\ has (headers r) "Sw-Net-Err" = true
    /\ ~ (has (headers r) serviceWorkerErrorCatchHeader = false).
Proof.
  cbv zeta.
  exists (errorResponse (JS.Str "template endpoint must have query")).
  split; [ reflexivity | ].
  split; [ reflexivity | ]. split; [ reflexivity | ].
  intros H. discriminate H.
Qed.

(** C8. The root document and the entry script: the network is called
    once (with the request for the root, with the fixed URL for the script),
    nothing else is, and its response is returned as it is; when the fetch
    rejects the answer is the document built in memory from the inlined
    asset, with status 200, its content type and precomputed length, the
    extra headers and the cache-hit header.  The two headers read back as
    given whenever the extra headers do not name them. *)
Theorem root_and_entry_script (assets : Assets) (host : Host) (origin : string)
    (extra : option Object) (shouldLog : bool)
    (event : fetchHandler.FetchHandlerEvent) :
  let request := fetchHandler.request event in
  let result := run (handle assets host origin extra shouldLog event) in
  let entryScript := origin ++ "/secure.compiled.js" in
  (url request = origin ++ "/" ->
   fst result = [NetworkFetch (OfRequest request)]
   /\ cache_calls (fst result) = []
   /\ snd result
      = match network host (OfRequest request) with
        | Fulfilled res => Fulfilled res
        | Rejected _ =>
            Fulfilled (in_memory_document "text/html" (IndexHtml assets)
                         (INDEX_HTML_LENGTH assets) (extra_headers extra))
        end)
  /\ (JS.startsWith (url request) entryScript = true ->
      fst result = [NetworkFetch (OfString entryScript)]
      /\ cache_calls (fst result) = []
      /\ snd result
         = match network host (OfString entryScript) with
           | Fulfilled res => Fulfilled res
           | Rejected _ =>
               Fulfilled (in_memory_document "text/javascript" (SecureMjs assets)
                            (SECURE_MJS_LENGTH assets) (extra_headers extra))
           end)
  /\ (forall contentType text len,
        let r := in_memory_document contentType text len (extra_headers extra) in
        status r = 200%Z
        /\ body r = text
        /\ has (headers r) "X-Cache-Hit" = true
        /\ (has (extra_headers extra) "content-type" = false ->
            get (headers r) "content-type" = Some contentType)
        /\ (has (extra_headers extra) "content-length" = false ->
            get (headers r) "content-length" = Some (JS.nat_toString len))).
Proof.
  cbv zeta. split; [ | split ].
  - intros H. unfold handle. rewrite route_root by exact H.
    unfold run, try_catch, await, resolve, host_fetch; simpl.
    destruct (network host (OfRequest (fetchHandler.request event))); simpl;
      repeat split; try reflexivity.
    now rewrite in_memory_response.
  - intros H. unfold handle. rewrite route_entry_script by exact H.
    unfold run, try_catch, await, resolve, host_fetch; simpl.
    destruct (network host (OfString (origin ++ "/secure.compiled.js"))); simpl;
      repeat split; try reflexivity.
    now rewrite in_memory_response.
  - intros contentType text len. unfold in_memory_document; simpl.
    split; [ reflexivity | ]. split; [ reflexivity | ]. split.
    + unfold has. rewrite existsb_app. simpl. apply orb_true_r.
    + split; intros He; rewrite get_spread_append by (exact He || reflexivity);
        reflexivity.
Qed.

(** An instance: the root document while the network is down; the entry
    the cache holds for it is not served. *)
Lemma root_and_entry_script_witness :
  url (fetchHandler.request (Sample.eventFor "https://donuts.com/")) = Sample.donuts ++ "/"
  /\ snd (run (handle Sample.assets Sample.offline_cached Sample.donuts None true
                 (Sample.eventFor "https://donuts.com/")))
     = Fulfilled (in_memory_document "text/html" "<html></html>" 13 []).
Proof.
  split; [ reflexivity | ].
  exact (proj2 (proj2 (proj1
    (root_and_entry_script Sample.assets Sample.offline_cached Sample.donuts None true
       (Sample.eventFor "https://donuts.com/")) eq_refl))).
Defined.

(** The template endpoint on a well-formed request: both parameters are
    present and each decodes.  The answer, given without a call to the
    network or the cache, is the 200 response whose body is the fixed
    document with the decoded policy in the meta tag and the decoded entry
    in the script tag, and whose content length is the byte length of that
    body. *)
Theorem template_rendered (assets : Assets) (host : Host) (origin : string)
    (extra : option Object) (shouldLog : bool)
    (event : fetchHandler.FetchHandlerEvent) (C E : string) :
  let u := url (fetchHandler.request event) in
  let text :=
    document_head ++ csp_meta_tag C ++ document_middle
    ++ root_script_tag E ++ document_tail in
  JS.startsWith u (origin ++ config.RUN_PROGRAM_PATHNAME) = true ->
  2 <= length (template_query u) ->
  URL.has (template_params u) "csp" = true ->
  URL.has (template_params u) "entry" = true ->
  URL.decodeURIComponent (JS.or_else (URL.get (template_params u) "csp") EmptyString)
  = Some C ->
  URL.decodeURIComponent (JS.or_else (URL.get (template_params u) "entry") EmptyString)
  = Some E ->
  run (handle assets host origin extra shouldLog event)
  = ([], Fulfilled (template_response text (extra_headers extra)))
  /\ (has (extra_headers extra) "content-type" = false ->
      get (headers (template_response text (extra_headers extra))) "content-type"
      = Some "text/html")
  /\ (has (extra_headers extra) "content-length" = false ->
      get (headers (template_response text (extra_headers extra))) "content-length"
      = Some (JS.nat_toString (String.length text))).
Proof.
  intros u text Hu Hq Hc He HC HE. split.
  - unfold handle. rewrite route_template by exact Hu.
    cbv zeta. fold u.
    destruct (Nat.ltb_spec (length (template_query u)) 2) as [L | _]; [ lia | ].
    rewrite Hc, He, HC, HE. simpl negb. simpl orb. cbv iota.
    rewrite generateTemplate_text. reflexivity.
  - unfold template_response; simpl headers.
    split; intros H;
      rewrite <- (app_nil_r (spread _ _));
      rewrite get_spread_append by (exact H || reflexivity); reflexivity.
Qed.

(** An instance: the request of the tests, both parameters encoded once. *)
Lemma template_rendered_witness :
  JS.startsWith Sample.templateUrl (Sample.donuts ++ config.RUN_PROGRAM_PATHNAME) = true
  /\ URL.get (template_params Sample.templateUrl) "csp" = Some "default-src 'self';"
  /\ URL.get (template_params Sample.templateUrl) "entry"
     = Some "https://pizza.com/index.js"
  /\ run (handle Sample.assets Sample.offline Sample.donuts None false
            (Sample.eventFor Sample.templateUrl))
     = ([], Fulfilled
              (template_response
                 (document_head ++ csp_meta_tag "default-src 'self';"
                  ++ document_middle
                  ++ root_script_tag "https://pizza.com/index.js"
                  ++ document_tail) [])).
Proof.
  split; [ reflexivity | ]. split; [ reflexivity | ]. split; [ reflexivity | ].
  assert (Q : 2 <= length (template_query Sample.templateUrl)) by (vm_compute; lia).
  exact (proj1 (template_rendered Sample.assets Sample.offline Sample.donuts None
                  false (Sample.eventFor Sample.templateUrl)
                  "default-src 'self';" "https://pizza.com/index.js"
                  eq_refl Q eq_refl eq_refl eq_refl eq_refl)).
Defined.

(** C9 fails on the code.  The router decodes the parameters a second
    time after [URLSearchParams] has decoded them.  A csp parameter whose
    value is a percent sign makes the handler reject with a URIError, and
    one whose value is the three characters percent, 4, 1 is rendered as
    the letter A. *)
Theorem template_double_decoding :
  let handler := handle Sample.assets Sample.online Sample.donuts None false in
  let rejected := "https://donuts.com/runProgram?csp=%25&entry=index.js" in
  let altered := "https://donuts.com/runProgram?csp=%2541&entry=index.js" in
  (URL.get (template_params rejected) "csp" = Some "%"
   /\ URL.get (template_params rejected) "entry" = Some "index.js"
   /\ run (handler (Sample.eventFor rejected))
      = ([], Rejected (JS.Error "URIError" "URI malformed")))
  /\ (URL.get (template_params altered) "csp" = Some "%41"
      /\ run (handler (Sample.eventFor altered))
         = ([], Fulfilled
                  (template_response
                     (document_head ++ csp_meta_tag "A" ++ document_middle
                      ++ root_script_tag "index.js" ++ document_tail) []))).
Proof.
  cbv zeta. repeat split; vm_compute; reflexivity.
Qed.

(** C10. Every request whose URL starts with the entry-script URL is
    answered by fetching that fixed URL: the network is called with the
    string, not with the request, and any two such requests are handled by
    the same computation, so they get the same answer from the same host
    whatever the rest of their URL and their headers are. *)
Theorem entry_script_fixed_request (assets : Assets) (host : Host) (origin : string)
    (extra : option Object) (shouldLog : bool)
    (e1 e2 : fetchHandler.FetchHandlerEvent) :
  let entryScript := origin ++ "/secure.compiled.js" in
  JS.startsWith (url (fetchHandler.request e1)) entryScript = true ->
  JS.startsWith (url (fetchHandler.request e2)) entryScript = true ->
  fst (run (handle assets host origin extra shouldLog e1))
  = [NetworkFetch (OfString entryScript)]
  /\ forall t,
       handle assets host origin extra shouldLog e1 t
       = handle assets host origin extra shouldLog e2 t.
Proof.
  intros entryScript H1 H2. split.
  - unfold handle. rewrite route_entry_script by exact H1.
    unfold run, try_catch, await, resolve, host_fetch; simpl.
    now destruct (network host _).
  - intros t. unfold handle.
    now rewrite (route_entry_script_same _ _ _ _
                   (options host origin extra shouldLog) e1 e2 H1 H2).
Qed.

(** An instance: a request with a query and one with a longer path, other
    headers, another mode and another client. *)
Lemma entry_script_fixed_request_witness :
  JS.startsWith (url (fetchHandler.request Sample.scriptWithQuery))
    (Sample.donuts ++ "/secure.compiled.js") = true
  /\ JS.startsWith (url (fetchHandler.request Sample.scriptWithSuffix))
       (Sample.donuts ++ "/secure.compiled.js") = true
  /\ run (handle Sample.assets Sample.online Sample.donuts None true
            Sample.scriptWithQuery)
     = run (handle Sample.assets Sample.online Sample.donuts None true
              Sample.scriptWithSuffix).
Proof.
  split; [ reflexivity | ]. split; [ reflexivity | ].
  exact (proj2 (entry_script_fixed_request Sample.assets Sample.online Sample.donuts
                  None true Sample.scriptWithQuery Sample.scriptWithSuffix
                  eq_refl eq_refl) []).
Defined.



(** A request from another origin is handed to the policy engine with the
    functions of the host and the client the platform names: the client
    that issued the request or, when it names none, the client the
    navigation results in. *)
Theorem other_origin_delegates (assets : Assets) (host : Host) (origin : string)
    (extra : option Object) (shouldLog : bool)
    (event : fetchHandler.FetchHandlerEvent) :
  JS.startsWith (url (fetchHandler.request event)) origin = false ->
  handle assets host origin extra shouldLog event
  = engine host shouldLog
      (match fetchHandler.clientId event with
       | EmptyString => fetchHandler.resultingClientId event
       | id => id
       end)
      (fetchHandler.request event).
Proof.
  intros H. unfold handle, fetchHandler.createFetchHandler, engine. cbv zeta.
  change (fetchHandler.origin (options host origin extra shouldLog)) with origin.
  rewrite H. unfold JS.or_else.
  destruct (fetchHandler.clientId event); reflexivity.
Qed.

(** An instance: the event names no client, so the resulting client is used. *)
Lemma other_origin_delegates_witness :
  JS.startsWith (url (fetchHandler.request Sample.scriptWithSuffix)) "https://pizza.com"
  = false
  /\ handle Sample.assets Sample.offline "https://pizza.com" None true
       Sample.scriptWithSuffix
     = engine Sample.offline true "client-2"
         (fetchHandler.request Sample.scriptWithSuffix).
Proof.
  split; [ reflexivity | ].
  exact (other_origin_delegates Sample.assets Sample.offline "https://pizza.com" None
           true Sample.scriptWithSuffix eq_refl).
Defined.

(** Any other path of the origin is answered by the constant 404 response,
    with no call to the network or the cache. *)
Theorem unknown_path_not_found (assets : Assets) (host : Host) (origin : string)
    (extra : option Object) (shouldLog : bool)
    (event : fetchHandler.FetchHandlerEvent) :
  let u := url (fetchHandler.request event) in
  JS.startsWith u origin = true ->
  u <> origin ++ "/" ->
  JS.startsWith u (origin ++ config.RUN_PROGRAM_PATHNAME) = false ->
  JS.startsWith u (origin ++ "/secure.compiled.js") = false ->
  JS.startsWith u (origin ++ "/test.mjs") = false ->
  run (handle assets host origin extra shouldLog event)
  = ([], Fulfilled NOT_FOUND_RESPONSE).
Proof.
  intros u H0 H1 H2 H3 H4.
  unfold handle, fetchHandler.createFetchHandler. cbv zeta.
  change (fetchHandler.origin (options host origin extra shouldLog)) with origin.
  fold u. rewrite H0, H2, H3, H4.
  apply String.eqb_neq in H1. rewrite H1. reflexivity.
Qed.

(** An instance: a page of the origin that is none of the four routes. *)
Lemma unknown_path_not_found_witness :
  run (handle Sample.assets Sample.online_cached Sample.donuts None true
         (Sample.eventFor "https://donuts.com/cool/resource.html"))
  = ([], Fulfilled NOT_FOUND_RESPONSE).
Proof.
  refine (unknown_path_not_found Sample.assets Sample.online_cached Sample.donuts
            None true (Sample.eventFor "https://donuts.com/cool/resource.html")
            eq_refl _ eq_refl eq_refl eq_refl).
  intros H. discriminate H.
Defined.

(** * Further properties of the code *)

Import serviceWorker inlineCoreFiles Observed.

(** ** The policy engine: frames, logging, answers *)

(** The three tests of the switch, decided: one of the four branches. *)
Ltac branches :=
  destruct (JS.strict_eq _ NETWORK_ONLY_POLICY);
  [ | destruct (JS.strict_eq _ NETWORK_FIRST_POLICY);
      [ | destruct (JS.strict_eq _ CACHE_ONLY_POLICY) ] ].

(** Network-only never looks at the file cache and cache-only never looks
    at the network function: whatever is passed in their place, the
    computation is the same. *)
Theorem policy_frames (request : Request)
    (networkFetch networkFetch' : RequestInfo -> Promise Response)
    (fileCache fileCache' : fetchCore.FileCache)
    (id : string) (log : LogFn) (shouldLog : bool) :
  (policy_header request = Some "2" ->
   fetchCore.fetchCore request networkFetch fileCache id log shouldLog
   = fetchCore.fetchCore request networkFetch fileCache' id log shouldLog)
  /\ (policy_header request = Some "4" ->
      fetchCore.fetchCore request networkFetch fileCache id log shouldLog
      = fetchCore.fetchCore request networkFetch' fileCache id log shouldLog).
Proof.
  split; intros Hp; unfold fetchCore.fetchCore, policy_header in *;
    cbv zeta; rewrite Hp.
  - selects (Some "2") true false false. reflexivity.
  - selects (Some "4") false false true. reflexivity.
Qed.

(** An instance: a network-only request with two different caches. *)
Lemma policy_frames_witness :
  policy_header (Sample.requestTo "https://pizza.com/index.js" [("Sw-Policy", "2")])
  = Some "2"
  /\ engine Sample.offline_cached true "client-1"
       (Sample.requestTo "https://pizza.com/index.js" [("Sw-Policy", "2")])
     = engine Sample.offline true "client-1"
         (Sample.requestTo "https://pizza.com/index.js" [("Sw-Policy", "2")]).
Proof.
  split; [ reflexivity | ].
  exact (proj1 (policy_frames
                  (Sample.requestTo "https://pizza.com/index.js" [("Sw-Policy", "2")])
                  (host_fetch Sample.offline) (host_fetch Sample.offline)
                  (fetchCore.mkFileCache (host_getClientFile Sample.offline_cached))
                  (fetchCore.mkFileCache (host_getClientFile Sample.offline))
                  "client-1" host_log true)
               eq_refl).
Defined.

(** Logging changes nothing but the log: whether it is on or off, the
    engine settles alike and calls the network and the cache alike; and
    when it is off the logger is never called. *)
Lemma engine_logging (host : Host) (id : string) (request : Request) :
  let on := run (engine host true id request) in
  let off := run (engine host false id request) in
  snd on = snd off
  /\ network_calls (fst on) = network_calls (fst off)
  /\ cache_calls (fst on) = cache_calls (fst off)
  /\ log_lines (fst off) = [].
Proof.
  settle. branches;
    destruct (network host (OfRequest request));
    destruct (files host (url request) id) as [[entry | ] | e];
    cbn; try destruct (ok entry); cbn; repeat split; reflexivity.
Qed.

(** With logging on and a file cache that answers, every resolution logs
    exactly one line. *)
Theorem engine_logs_once (host : Host) (id : string) (request : Request)
    (cached : option Response) :
  files host (url request) id = Fulfilled cached ->
  length (log_lines (fst (run (engine host true id request)))) = 1.
Proof.
  intros Hf. settle. rewrite Hf. branches;
    destruct (network host (OfRequest request));
    destruct cached as [entry | ]; cbn; try destruct (ok entry); reflexivity.
Qed.

(** An instance: a cache-first request served from the cache. *)
Lemma engine_logs_once_witness :
  files Sample.online_cached "https://pizza.com/index.js" "client-1"
  = Fulfilled (Some Sample.cached)
  /\ length (log_lines (fst (run (engine Sample.online_cached true "client-1"
                                    (Sample.requestTo "https://pizza.com/index.js" [])))))
     = 1.
Proof.
  split; [ reflexivity | ].
  exact (engine_logs_once Sample.online_cached "client-1"
           (Sample.requestTo "https://pizza.com/index.js" [])
           (Some Sample.cached) eq_refl).
Defined.


(** One resolution calls the network at most once and the file cache at
    most once: no policy retries. *)
Lemma engine_calls_bounded (host : Host) (shouldLog : bool) (id : string)
    (request : Request) :
  length (network_calls (fst (run (engine host shouldLog id request)))) <= 1
  /\ length (cache_calls (fst (run (engine host shouldLog id request)))) <= 1.
Proof.
  settle. branches; destruct shouldLog; cbn;
    destruct (network host (OfRequest request));
    destruct (files host (url request) id) as [[entry | ] | e];
    cbn; try destruct (ok entry); cbn; split; auto.
Qed.

(** ** The router: frames, bounds, the template route, look-alike origins *)

(** Decides the tests of the router one after the other, leaving a goal
    for each of its branches. *)
Ltac routes u origin :=
  destruct (JS.startsWith u origin);
  [ destruct (String.eqb u (origin ++ "/"));
    [ | destruct (JS.startsWith u (origin ++ config.RUN_PROGRAM_PATHNAME));
        [ | destruct (JS.startsWith u (origin ++ "/secure.compiled.js"));
            [ | destruct (JS.startsWith u (origin ++ "/test.mjs")) ] ] ]
  | ].

(** The branches of the template route, decided. *)
Ltac template_cases :=
  destruct (length _ <? 2)%nat;
  [ | destruct (negb _ || negb _);
      [ | destruct (URL.decodeURIComponent _);
          [ destruct (URL.decodeURIComponent _) | ] ] ].

(** A request of the own origin is answered without the file cache of the
    client, the logger and the log flag: whichever are given to the router,
    the computation is the same. *)
Theorem same_origin_frame (IndexHtml SecureMjs : string)
    (INDEX_HTML_LENGTH SECURE_MJS_LENGTH : nat) (origin : string)
    (networkFetch : RequestInfo -> Promise Response) (extra : option Object)
    (fileCache fileCache' : fetchHandler.FileCache) (log log' : LogFn)
    (config config' : fetchHandler.ConfigReference)
    (event : fetchHandler.FetchHandlerEvent) :
  JS.startsWith (url (fetchHandler.request event)) origin = true ->
  fetchHandler.createFetchHandler IndexHtml SecureMjs INDEX_HTML_LENGTH SECURE_MJS_LENGTH
    (fetchHandler.mkOptions origin fileCache networkFetch extra log config) event
  = fetchHandler.createFetchHandler IndexHtml SecureMjs INDEX_HTML_LENGTH
      SECURE_MJS_LENGTH
      (fetchHandler.mkOptions origin fileCache' networkFetch extra log' config') event.
Proof.
  intros H. unfold fetchHandler.createFetchHandler. cbv zeta.
  cbn [fetchHandler.origin fetchHandler.networkFetch
       fetchHandler.inMemoryDocumentHeaders].
  rewrite H. reflexivity.
Qed.

(** An instance: the root document asked of two hosts that differ in their
    file cache only, once with logging and once without. *)
Lemma same_origin_frame_witness :
  JS.startsWith (url (fetchHandler.request (Sample.eventFor "https://donuts.com/")))
    Sample.donuts = true
  /\ handle Sample.assets Sample.offline_cached Sample.donuts None true
       (Sample.eventFor "https://donuts.com/")
     = handle Sample.assets Sample.offline Sample.donuts None false
         (Sample.eventFor "https://donuts.com/").
Proof.
  split; [ reflexivity | ].
  exact (same_origin_frame "<html></html>" "export {}" 13 9 Sample.donuts
           (host_fetch Sample.offline) None
           (fetchHandler.mkFileCache (host_getClientFile Sample.offline_cached))
           (fetchHandler.mkFileCache (host_getClientFile Sample.offline))
           host_log host_log (fetchHandler.mkConfig true) (fetchHandler.mkConfig false)
           (Sample.eventFor "https://donuts.com/") eq_refl).
Defined.

(** Logging changes nothing but the log, on every route: with the flag on
    or off the handler settles alike and calls the network and the cache
    alike, and with the flag off the logger is never called. *)
Theorem handle_logging (assets : Assets) (host : Host) (origin : string)
    (extra : option Object) (event : fetchHandler.FetchHandlerEvent) :
  let on := run (handle assets host origin extra true event) in
  let off := run (handle assets host origin extra false event) in
  snd on = snd off
  /\ network_calls (fst on) = network_calls (fst off)
  /\ cache_calls (fst on) = cache_calls (fst off)
  /\ log_lines (fst off) = [].
Proof.
  cbv zeta. unfold handle, fetchHandler.createFetchHandler, options. cbv zeta.
  cbn [fetchHandler.origin fetchHandler.networkFetch fetchHandler.fileCache
       fetchHandler.inMemoryDocumentHeaders fetchHandler.log fetchHandler.config
       fetchHandler.config_log fetchHandler.getClientFile].
  routes (url (fetchHandler.request event)) origin.
  - unfold run, try_catch, await, resolve, host_fetch; simpl.
    destruct (network host _); repeat split; reflexivity.
  - template_cases; repeat split; reflexivity.
  - unfold run, try_catch, await, resolve, host_fetch; simpl.
    destruct (network host _); repeat split; reflexivity.
  - repeat split; reflexivity.
  - repeat split; reflexivity.
  - apply (engine_logging host _ (fetchHandler.request event)).
Qed.

(** One event costs at most one call of the network and at most one call
    of the file cache, whatever the route and the policy; and a request of
    the own origin never reaches the file cache. *)
Theorem handle_calls_bounded (assets : Assets) (host : Host) (origin : string)
    (extra : option Object) (shouldLog : bool)
    (event : fetchHandler.FetchHandlerEvent) :
  let t := fst (run (handle assets host origin extra shouldLog event)) in
  length (network_calls t) <= 1
  /\ length (cache_calls t) <= 1
  /\ (JS.startsWith (url (fetchHandler.request event)) origin = true ->
      cache_calls t = []).
Proof.
  cbv zeta. unfold handle, fetchHandler.createFetchHandler, options. cbv zeta.
  cbn [fetchHandler.origin fetchHandler.networkFetch fetchHandler.fileCache
       fetchHandler.inMemoryDocumentHeaders fetchHandler.log fetchHandler.config
       fetchHandler.config_log fetchHandler.getClientFile].
  routes (url (fetchHandler.request event)) origin.
  - unfold run, try_catch, await, resolve, host_fetch; simpl.
    destruct (network host _); simpl; auto.
  - template_cases; simpl; auto.
  - unfold run, try_catch, await, resolve, host_fetch; simpl.
    destruct (network host _); simpl; auto.
  - simpl; auto.
  - simpl; auto.
  - destruct (engine_calls_bounded host shouldLog
                (JS.or_else (Some (fetchHandler.clientId event))
                   (fetchHandler.resultingClientId event))
                (fetchHandler.request event)) as [N C].
    split; [ exact N | ]. split; [ exact C | ]. intros D. discriminate D.
Qed.

(** An instance: the entry script asked while its copy sits in the cache
    of the client. *)
Lemma handle_calls_bounded_witness :
  JS.startsWith (url (fetchHandler.request Sample.scriptWithQuery)) Sample.donuts = true
  /\ cache_calls (fst (run (handle Sample.assets Sample.offline_cached Sample.donuts
                              None true Sample.scriptWithQuery)))
     = [].
Proof.
  split; [ reflexivity | ].
  exact (proj2 (proj2 (handle_calls_bounded Sample.assets Sample.offline_cached
                         Sample.donuts None true Sample.scriptWithQuery))
               eq_refl).
Defined.

(** The template route never touches the host: on each of its paths, the
    two usage errors, the rendered document and the rejection of a value
    that does not decode, no call is made to the network, the file cache
    or the logger. *)
Theorem template_route_silent (assets : Assets) (host : Host) (origin : string)
    (extra : option Object) (shouldLog : bool)
    (event : fetchHandler.FetchHandlerEvent) :
  JS.startsWith (url (fetchHandler.request event))
    (origin ++ config.RUN_PROGRAM_PATHNAME) = true ->
  fst (run (handle assets host origin extra shouldLog event)) = [].
Proof.
  intros H. unfold handle.
  rewrite (route_template _ _ _ _ (options host origin extra shouldLog) event H).
  cbv zeta. template_cases; reflexivity.
Qed.

(** An instance: a template request whose csp value does not decode. *)
Lemma template_route_silent_witness :
  JS.startsWith "https://donuts.com/runProgram?csp=100%&entry=index.js"
    (Sample.donuts ++ config.RUN_PROGRAM_PATHNAME) = true
  /\ fst (run (handle Sample.assets Sample.online_cached Sample.donuts None true
                 (Sample.eventFor "https://donuts.com/runProgram?csp=100%&entry=index.js")))
     = [].
Proof.
  split; [ reflexivity | ].
  exact (template_route_silent Sample.assets Sample.online_cached Sample.donuts None
           true (Sample.eventFor "https://donuts.com/runProgram?csp=100%&entry=index.js")
           eq_refl).
Defined.

Lemma prefix_cons (a b : ascii) (p s : string) :
  String.prefix (String a p) (String b s)
  = if Ascii.eqb a b then String.prefix p s else false.
Proof.
  change (String.prefix (String a p) (String b s))
    with (if ascii_dec a b then String.prefix p s else false).
  destruct (ascii_dec a b) as [-> | N].
  - now rewrite Ascii.eqb_refl.
  - apply Ascii.eqb_neq in N. now rewrite N.
Qed.

(** The test for the own origin is a test on the text of the URL.  A URL
    that continues the origin with anything but a slash, another host
    whose name begins with the name of the origin or a port with more
    digits, counts as the own origin, matches none of its routes and gets
    the 404: it is never handed to the policy engine, the network or the
    file cache. *)
Theorem origin_prefix_not_found (assets : Assets) (host : Host) (origin rest : string)
    (extra : option Object) (shouldLog : bool)
    (event : fetchHandler.FetchHandlerEvent) :
  url (fetchHandler.request event) = origin ++ rest ->
  JS.startsWith rest "/" = false ->
  run (handle assets host origin extra shouldLog event)
  = ([], Fulfilled NOT_FOUND_RESPONSE).
Proof.
  intros E R.
  assert (P : forall path, String.prefix (String "/" path) rest = false).
  { intros path. destruct rest as [ | c rest']; [ reflexivity | ].
    unfold JS.startsWith in R. rewrite prefix_cons in *.
    destruct (Ascii.eqb "/" c); [ | reflexivity ].
    destruct rest'; discriminate R. }
  unfold handle, fetchHandler.createFetchHandler, JS.startsWith. cbv zeta.
  change (fetchHandler.origin (options host origin extra shouldLog)) with origin.
  rewrite E, prefix_append, eqb_common, !prefix_common.
  unfold config.RUN_PROGRAM_PATHNAME. rewrite !P.
  replace (String.eqb rest "/") with false; [ reflexivity | ].
  symmetry. apply String.eqb_neq. intros ->. discriminate R.
Qed.

(** An instance: a page of donuts.com.evil.org seen by the worker of
    donuts.com, whose network and cache both hold an answer. *)
Lemma origin_prefix_not_found_witness :
  url (fetchHandler.request lookalike) = Sample.donuts ++ ".evil.org/index.js"
  /\ run (handle Sample.assets Sample.online_cached Sample.donuts None true lookalike)
     = ([], Fulfilled NOT_FOUND_RESPONSE).
Proof.
  split; [ reflexivity | ].
  exact (origin_prefix_not_found Sample.assets Sample.online_cached Sample.donuts
           ".evil.org/index.js" None true lookalike eq_refl eq_refl).
Defined.

(** ** The shared contracts: the cache-hit mark, the policy codes *)

Lemma values_single (k v name : string) :
  values [(k, v)] name = if same_name k name then [v] else [].
Proof.
  unfold values. cbn [filter fst]. destruct (same_name k name); reflexivity.
Qed.

(** [cacheHit] appends and never replaces.  Status, status text and body
    are kept; under every header name the values are the ones the response
    had, followed, under the name of the mark in any capitals, by one more
    [SW HIT].  So a response marked twice reads the mark twice. *)
Theorem cacheHit_appends (response : Response) (name : string) :
  status (cacheHit response) = status response
  /\ statusText (cacheHit response) = statusText response
  /\ body (cacheHit response) = body response
  /\ values (headers (cacheHit response)) name
     = (values (headers response) name
        ++ if same_name "X-Cache-Hit" name then ["SW HIT"] else [])%list
  /\ (has (headers response) "X-Cache-Hit" = false ->
      get (headers (cacheHit response)) "x-cache-hit" = Some "SW HIT"
      /\ get (headers (cacheHit (cacheHit response))) "x-cache-hit"
         = Some "SW HIT, SW HIT").
Proof.
  split; [ reflexivity | ]. split; [ reflexivity | ]. split; [ reflexivity | ].
  split.
  - unfold cacheHit, append; cbn [headers]. rewrite values_app, values_single.
    reflexivity.
  - intros H.
    assert (H' : has (headers response) "x-cache-hit" = false) by exact H.
    unfold get, cacheHit, append; cbn [headers].
    rewrite !values_app, !values_single, (values_absent _ _ H').
    split; reflexivity.
Qed.

(** An instance: the sample entry of the cache, which carries no mark. *)
Lemma cacheHit_appends_witness :
  has (headers Sample.cached) "X-Cache-Hit" = false
  /\ get (headers marked) "x-cache-hit" = Some "SW HIT"
  /\ get (headers (cacheHit marked)) "x-cache-hit" = Some "SW HIT, SW HIT".
Proof.
  split; [ reflexivity | ].
  exact (proj2 (proj2 (proj2 (proj2 (cacheHit_appends Sample.cached "x-cache-hit"))))
               eq_refl).
Defined.

(** *** Printing a policy code and reading it back *)








(** ** The template: the parameters stand in it as they are *)

Lemma length_append (a b : string) :
  String.length (a ++ b) = String.length a + String.length b.
Proof. induction a as [ | c a IH]; simpl; [ reflexivity | now rewrite IH ]. Qed.

(** [generateTemplate] neither escapes nor trims its parameters: the text
    is the fixed document with the policy and the entry inserted as given,
    so its byte length is that of the document, 413 bytes, plus theirs. *)
Theorem generateTemplate_verbatim (importSource securityPolicy : string) :
  fetchHandler.generateTemplate importSource securityPolicy
  = document_head ++ csp_meta_tag securityPolicy ++ document_middle
    ++ root_script_tag importSource ++ document_tail
  /\ String.length (fetchHandler.generateTemplate importSource securityPolicy)
     = 413 + String.length securityPolicy + String.length importSource.
Proof.
  split; [ apply generateTemplate_text | ].
  rewrite generateTemplate_text.
  unfold csp_meta_tag, root_script_tag, JS.quoted.
  rewrite !length_append.
  change (String.length document_head) with 231.
  change (String.length document_middle) with 20.
  change (String.length document_tail) with 16.
  simpl String.length. lia.
Qed.

(** ** The deployed worker: its cache resolver and its documents *)

(** The resolver of the deployed worker.  Without a client it answers null
    and the remote call is not made.  It yields a response only for a reply
    that is an object with a stream as body, a string as type and a number
    as length, and that response has status 200, the bytes of the stream as
    body and these two headers and no other; it makes at most two calls. *)
Theorem getClientFile_answers (w : Worker) (url clientId : string) :
  let result := getClientFile w url clientId in
  (clients_get w clientId = Fulfilled None ->
   result = ([ClientsGet clientId], Fulfilled None))
  /\ (forall r, snd result = Fulfilled (Some r) ->
      status r = 200%Z /\ ok r = true
      /\ exists client bytes type length t l,
           clients_get w clientId = Fulfilled (Some client)
           /\ executeWithSource w "getFile" client url
              = Fulfilled (File (Stream bytes) (Text type) (Numeric length))
           /\ header_value w type = Some t
           /\ header_value w length = Some l
           /\ body r = bytes
           /\ headers r = [("content-type", t); ("content-length", l)])
  /\ List.length (fst result) <= 2.
Proof.
  cbv zeta. unfold getClientFile. split; [ | split ].
  - intros ->. reflexivity.
  - intros r.
    destruct (clients_get w clientId) as [[client | ] | e] eqn:C; try discriminate.
    destruct (executeWithSource w "getFile" client url)
      as [[ | | [bytes | | | ] [ | type | | ] [ | | length | ]] | e] eqn:X;
      try discriminate.
    destruct (header_value w type) as [t | ] eqn:T; try discriminate.
    destruct (header_value w length) as [l | ] eqn:L; try discriminate.
    simpl. intros H. injection H as <-.
    split; [ reflexivity | ]. split; [ reflexivity | ].
    exists client, bytes, type, length, t, l.
    repeat split; first [ reflexivity | assumption ].
  - destruct (clients_get w clientId) as [[client | ] | e]; simpl; auto.
    destruct (executeWithSource w "getFile" client url)
      as [[ | | [bytes | | | ] [ | type | | ] [ | | length | ]] | e];
      simpl; auto.
    destruct (header_value w type); destruct (header_value w length); simpl; auto.
Qed.

(** A helper for what follows: an entry of the resolver is a 200. *)
Lemma getClientFile_shape (w : Worker) (url clientId : string) (r : Response) :
  snd (getClientFile w url clientId) = Fulfilled (Some r) ->
  status r = 200%Z /\ ok r = true.
Proof.
  unfold getClientFile.
  destruct (clients_get w clientId) as [[client | ] | e]; try discriminate.
  destruct (executeWithSource w "getFile" client url)
    as [[ | | [bytes | | | ] [ | type | | ] [ | | length | ]] | e];
    try discriminate.
  destruct (header_value w type); try discriminate.
  destruct (header_value w length); try discriminate.
  simpl. intros H. injection H as <-. split; reflexivity.
Qed.

(** An instance: a client that is not known to the worker. *)
Lemma getClientFile_answers_witness :
  clients_get worker "client-9" = Fulfilled None
  /\ getClientFile worker "https://pizza.com/index.js" "client-9"
     = ([ClientsGet "client-9"], Fulfilled None).
Proof.
  split; [ reflexivity | ].
  exact (proj1 (getClientFile_answers worker "https://pizza.com/index.js" "client-9")
               eq_refl).
Defined.

(** The entries of the deployed resolver are always 2xx, so the policy
    engine never turns one down: a file the client has is served as a
    cache hit under cache-first without any call of the network, and under
    network-first whenever the network fails. *)
Theorem deployed_file_served (network : RequestInfo -> Settled Response)
    (w : Worker) (shouldLog : bool) (id : string) (request : Request)
    (r : Response) :
  snd (getClientFile w (url request) id) = Fulfilled (Some r) ->
  let resolution := run (engine (serviceWorker.host network w) shouldLog id request) in
  (policy_header request = None \/ policy_header request = Some "3" ->
   snd resolution = Fulfilled (cacheHit r)
   /\ network_calls (fst resolution) = [])
  /\ (policy_header request = Some "1" ->
      forall err, network (OfRequest request) = Rejected err ->
      snd resolution = Fulfilled (cacheHit r)).
Proof.
  intros Hf.
  assert (K : ok r = true).
  { destruct (getClientFile_shape w (url request) id r Hf) as [_ K]. exact K. }
  cbv zeta. split.
  - intros Hp. settle. unfold serviceWorker.host; cbn [Async.network Async.files].
    assert (E : JS.or_else (get (request_headers request) serviceWorkerPolicyHeader)
                  fetchCore.CACHE_FIRST = "3")
      by (destruct Hp as [-> | ->]; reflexivity).
    rewrite E, Hf.
    change (JS.strict_eq (JS.parseInt "3" 10) NETWORK_ONLY_POLICY) with false.
    change (JS.strict_eq (JS.parseInt "3" 10) NETWORK_FIRST_POLICY) with false.
    change (JS.strict_eq (JS.parseInt "3" 10) CACHE_ONLY_POLICY) with false.
    cbv iota. destruct shouldLog; cbn; rewrite K; split; reflexivity.
  - intros Hp err Hn. settle. unfold serviceWorker.host; cbn [Async.network Async.files].
    rewrite Hp, Hn, Hf. selects (Some "1") false true false.
    destruct shouldLog; cbn; rewrite K; reflexivity.
Qed.

(** An instance: the sample worker, whose client holds the script, asked
    cache-first while the network is down. *)
Lemma deployed_file_served_witness :
  snd (getClientFile worker "https://pizza.com/index.js" "client-1")
  = Fulfilled (Some served)
  /\ snd (run (engine (serviceWorker.host down worker) true "client-1"
                 (Sample.requestTo "https://pizza.com/index.js" [])))
     = Fulfilled (cacheHit served).
Proof.
  split; [ reflexivity | ].
  exact (proj1 (proj1 (deployed_file_served down worker true "client-1"
                         (Sample.requestTo "https://pizza.com/index.js" [])
                         served eq_refl)
                      (or_introl eq_refl))).
Defined.

(** The documents of the deployed worker.  When the network fails on the
    root document, the handler installed by the worker answers with the
    inlined page, and the headers it configures do not disturb the two the
    router sets: the content type reads text/html and the content length
    the inlined length, beside the four isolation headers, the cache-hit
    mark and the access header.  The access header is the development one
    only for an origin that starts with the misspelt [http://locahost]; for
    an origin that starts with [http://localhost] it is the star. *)
Theorem deployed_root_document (assets : Assets)
    (network : RequestInfo -> Settled Response) (w : Worker) (origin : string)
    (event : fetchHandler.FetchHandlerEvent) (err : JS.Value) :
  url (fetchHandler.request event) = origin ++ "/" ->
  network (OfRequest (fetchHandler.request event)) = Rejected err ->
  exists r,
    run (serviceWorker.fetchHandler assets network w origin event)
    = ([NetworkFetch (OfRequest (fetchHandler.request event))], Fulfilled r)
    /\ status r = 200%Z
    /\ body r = IndexHtml assets
    /\ get (headers r) "content-type" = Some "text/html"
    /\ get (headers r) "content-length"
       = Some (JS.nat_toString (INDEX_HTML_LENGTH assets))
    /\ get (headers r) "cross-origin-embedder-policy" = Some "require-corp"
    /\ get (headers r) "cross-origin-opener-policy" = Some "same-origin"
    /\ get (headers r) "cross-origin-resource-policy" = Some "cross-origin"
    /\ get (headers r) "vary" = Some "origin"
    /\ get (headers r) "x-cache-hit" = Some "SW HIT"
    /\ get (headers r) "access-control-allow-origin"
       = Some (if DEV_MODE origin then "http://localhost:5173" else "*")
    /\ (JS.startsWith origin "http://localhost" = true ->
        get (headers r) "access-control-allow-origin" = Some "*").
Proof.
  intros Hu Hn.
  change (serviceWorker.fetchHandler assets network w origin event)
    with (handle assets (serviceWorker.host network w) origin
            (Some (inMemoryDocumentHeaders origin)) false event).
  unfold handle.
  rewrite (route_root _ _ _ _
             (options (serviceWorker.host network w) origin
                (Some (inMemoryDocumentHeaders origin)) false)
             event Hu).
  unfold run, try_catch, await, resolve, options, host_fetch, serviceWorker.host.
  cbn [fetchHandler.networkFetch fetchHandler.inMemoryDocumentHeaders
       Async.network extra_headers app]. rewrite Hn.
  rewrite in_memory_response. eexists. split; [ reflexivity | ].
  assert (D : JS.startsWith origin "http://localhost" = true -> DEV_MODE origin = false).
  { intros L. destruct (prefix_inv _ _ L) as [rest ->]. reflexivity. }
  unfold inMemoryDocumentHeaders, accessHeaders in *.
  destruct (DEV_MODE origin); repeat split; try reflexivity;
    intros L; specialize (D L); discriminate D.
Qed.

(** An instance: the worker of a development server on localhost. *)
Lemma deployed_root_document_witness :
  url (fetchHandler.request (Sample.eventFor "http://localhost:6777/"))
  = "http://localhost:6777" ++ "/"
  /\ JS.startsWith "http://localhost:6777" "http://localhost" = true
  /\ exists r,
       snd (run (serviceWorker.fetchHandler Sample.assets down worker
                   "http://localhost:6777"
                   (Sample.eventFor "http://localhost:6777/")))
       = Fulfilled r
       /\ get (headers r) "access-control-allow-origin" = Some "*".
Proof.
  split; [ reflexivity | ]. split; [ reflexivity | ].
  destruct (deployed_root_document Sample.assets down worker "http://localhost:6777"
              (Sample.eventFor "http://localhost:6777/") Sample.failure
              eq_refl eq_refl)
    as (r & R & _ & _ & _ & _ & _ & _ & _ & _ & _ & _ & A).
  exists r. split; [ now rewrite R | exact (A eq_refl) ].
Defined.

(** ** The build: the inlined length is the length of what is served *)

(** With the assets as the build script inlines them, the two documents
    the router serves from memory announce their true size: the content
    length is the decimal byte length of the body, for the root document
    and for the entry script, as long as the extra headers name no content
    length of their own. *)
Theorem inlined_content_length (htmlString jsString : string) (host : Host)
    (origin : string) (extra : option Object) (shouldLog : bool)
    (event : fetchHandler.FetchHandlerEvent) (err : JS.Value) :
  has (extra_headers extra) "content-length" = false ->
  let request := fetchHandler.request event in
  let entryScript := origin ++ "/secure.compiled.js" in
  let answer :=
    snd (run (handle (inlined htmlString jsString) host origin extra shouldLog event)) in
  (url request = origin ++ "/" ->
   network host (OfRequest request) = Rejected err ->
   exists r,
     answer = Fulfilled r /\ body r = htmlString
     /\ get (headers r) "content-length"
        = Some (JS.nat_toString (String.length (body r))))
  /\ (JS.startsWith (url request) entryScript = true ->
      network host (OfString entryScript) = Rejected err ->
      exists r,
        answer = Fulfilled r /\ body r = jsString
        /\ get (headers r) "content-length"
           = Some (JS.nat_toString (String.length (body r)))).
Proof.
  intros He. cbv zeta. unfold handle. split; intros Hu Hn.
  - rewrite route_root by exact Hu.
    unfold run, try_catch, await, resolve, options, host_fetch.
    cbn [fetchHandler.networkFetch]. rewrite Hn. cbn [snd].
    rewrite in_memory_response. eexists. split; [ reflexivity | ].
    split; [ reflexivity | ]. cbn [headers body].
    rewrite get_spread_append by (exact He || reflexivity). reflexivity.
  - rewrite route_entry_script by exact Hu.
    unfold run, try_catch, await, resolve, options, host_fetch.
    cbn [fetchHandler.networkFetch fetchHandler.origin]. rewrite Hn. cbn [snd].
    rewrite in_memory_response. eexists. split; [ reflexivity | ].
    split; [ reflexivity | ]. cbn [headers body].
    rewrite get_spread_append by (exact He || reflexivity). reflexivity.
Qed.

(** An instance: a page with a letter of two bytes, served while the
    network is down. *)
Lemma inlined_content_length_witness :
  has (extra_headers None) "content-length" = false
  /\ exists r,
       snd (run (handle (inlined "<p>café</p>" "export {}") Sample.offline
                   Sample.donuts None false (Sample.eventFor "https://donuts.com/")))
       = Fulfilled r
       /\ body r = "<p>café</p>"
       /\ get (headers r) "content-length" = Some "12".
Proof.
  split; [ reflexivity | ].
  destruct (proj1 (inlined_content_length "<p>café</p>" "export {}" Sample.offline
                     Sample.donuts None false (Sample.eventFor "https://donuts.com/")
                     Sample.failure eq_refl)
                  eq_refl eq_refl)
    as (r & A & B & C).
  exists r. split; [ exact A | ]. split; [ exact B | ].
  rewrite C, B. reflexivity.
Defined.
